(** * go-bsbmp: the BME680 sensor driver (bme680.go) and driver construction

    A shallow embedding of the Go code: fixed-width integers are [Z] with
    their wrap-around written out, register bytes are [Byte.byte], the
    I2C bus is a small program monad whose runs against a transport
    record the bus operations performed. *)

From Stdlib Require Import ZArith List String Bool Lia.
From Stdlib.Strings Require Import Byte.
Import ListNotations.
Local Open Scope Z_scope.

(** ** Fixed-width integers of Go *)

Module GoInt.

(** Conversion to an unsigned w-bit type: keep the low w bits. *)
Definition to_unsigned (w : Z) (z : Z) : Z := z mod 2 ^ w.

(** Conversion to a signed w-bit type: keep the low w bits, read in
    two's complement. *)
Definition to_signed (w : Z) (z : Z) : Z :=
  (z + 2 ^ (w - 1)) mod 2 ^ w - 2 ^ (w - 1).

Definition uint8 := to_unsigned 8.
Definition uint16 := to_unsigned 16.
Definition uint32 := to_unsigned 32.
Definition uint64 := to_unsigned 64.
Definition int8 := to_signed 8.
Definition int16 := to_signed 16.
Definition int32 := to_signed 32.
Definition int64 := to_signed 64.

(** Arithmetic of int32, int64 and uint64 operands.  Go's [/] on
    integers truncates toward zero, hence [Z.quot]. *)
Definition add32 (a b : Z) : Z := int32 (a + b).
Definition sub32 (a b : Z) : Z := int32 (a - b).
Definition mul32 (a b : Z) : Z := int32 (a * b).
Definition shl32 (a n : Z) : Z := int32 (Z.shiftl a n).

Definition addu32 (a b : Z) : Z := uint32 (a + b).
Definition shlu32 (a n : Z) : Z := uint32 (Z.shiftl a n).

Definition add64 (a b : Z) : Z := int64 (a + b).
Definition sub64 (a b : Z) : Z := int64 (a - b).
Definition mul64 (a b : Z) : Z := int64 (a * b).
Definition div64 (a b : Z) : Z := int64 (Z.quot a b).

Definition mulu64 (a b : Z) : Z := uint64 (a * b).
Definition divu64 (a b : Z) : Z := uint64 (Z.quot a b).

Definition shlu16 (a n : Z) : Z := uint16 (Z.shiftl a n).
Definition shlu8 (a n : Z) : Z := uint8 (Z.shiftl a n).

(** The value of a register byte, 0..255. *)
Definition u8 (b : byte) : Z := Z.of_N (Byte.to_N b).

(** The byte holding the low 8 bits of an integer. *)
Definition byte_of_Z (z : Z) : byte :=
  match Byte.of_N (Z.to_N (uint8 z)) with
  | Some b => b
  | None => x00
  end.

End GoInt.
Import GoInt.

(** ** BME680 memory map (bme680.go, const block) *)

Definition BME680_ID_REG : byte := x00.
Definition BME680_STATUS_REG : byte := x03.
Definition BME680_ERR_REG : byte := x02.
Definition BME680_ODR_REG : byte := x1d.
Definition BME680_OSR_REG : byte := x74.
Definition BME680_PWR_CTRL_REG : byte := x1b.
Definition BME680_CONFIG : byte := x75.
Definition BME680_CMD_REG : byte := x7e.
Definition BME680_COEF_START : byte := x31.
Definition BME680_COEF_BYTES : nat := 21.
Definition BME680_PRES_OUT_MSB_LSB_XLSB : byte := x04.
Definition BME680_TEMP_OUT_MSB_LSB_XLSB : byte := x22.

Definition BME680_PWR_MODE_SLEEP : Z := 0.
Definition BME680_PWR_MODE_FORCED : Z := 1.
Definition BME680_PWR_MODE_NORMAL : Z := 3.

Definition BME680_coef_0 : Z := 0.

(** ** Calibration coefficients (type CoeffBME680) *)

Record CoeffBME680 : Type := mkCoeffBME680 {
  COEF_31 : byte; COEF_32 : byte; COEF_33 : byte; COEF_34 : byte;
  COEF_35 : byte; COEF_36 : byte; COEF_37 : byte; COEF_38 : byte;
  COEF_39 : byte; COEF_3A : byte; COEF_3B : byte; COEF_3C : byte;
  COEF_3D : byte; COEF_3E : byte; COEF_3F : byte; COEF_40 : byte;
  COEF_41 : byte; COEF_42 : byte; COEF_43 : byte; COEF_44 : byte;
  COEF_45 : byte
}.

(** [uint16(hi)<<8 | uint16(lo)] *)
Definition hi_lo (hi lo : byte) : Z :=
  Z.lor (shlu16 (uint16 (u8 hi)) 8) (uint16 (u8 lo)).

Definition PAR_T1 (v : CoeffBME680) : Z := hi_lo (COEF_32 v) (COEF_31 v).
Definition PAR_T2 (v : CoeffBME680) : Z := uint16 (hi_lo (COEF_34 v) (COEF_33 v)).
Definition PAR_T3 (v : CoeffBME680) : Z := int8 (u8 (COEF_35 v)).
Definition PAR_P1 (v : CoeffBME680) : Z := int16 (hi_lo (COEF_37 v) (COEF_36 v)).
Definition PAR_P2 (v : CoeffBME680) : Z := int16 (hi_lo (COEF_39 v) (COEF_38 v)).
Definition PAR_P3 (v : CoeffBME680) : Z := int8 (uint16 (u8 (COEF_3A v))).
Definition PAR_P4 (v : CoeffBME680) : Z := int8 (uint16 (u8 (COEF_3B v))).
Definition PAR_P5 (v : CoeffBME680) : Z := uint16 (hi_lo (COEF_3D v) (COEF_3C v)).
Definition PAR_P6 (v : CoeffBME680) : Z := uint16 (hi_lo (COEF_3F v) (COEF_3E v)).
Definition PAR_P7 (v : CoeffBME680) : Z := int8 (uint16 (u8 (COEF_40 v))).
Definition PAR_P8 (v : CoeffBME680) : Z := int8 (uint16 (u8 (COEF_41 v))).
Definition PAR_P9 (v : CoeffBME680) : Z := int16 (hi_lo (COEF_43 v) (COEF_42 v)).
Definition PAR_P10 (v : CoeffBME680) : Z := int8 (uint16 (u8 (COEF_44 v))).
Definition PAR_P11 (v : CoeffBME680) : Z := int8 (uint16 (u8 (COEF_45 v))).

(** ** Compensation arithmetic

    The straight-line integer code of ReadTemperatureMult100C and
    ReadPressureMult10Pa after the raw samples and the coefficients have
    been read; one definition per Go variable. *)

Module Temperature.
(** bme680.go, ReadTemperatureMult100C, lines 445-451. *)
Section Formula.
Variables (ut : Z) (c : CoeffBME680).

Definition partial_data1 : Z :=
  uint64 (sub32 ut (int32 (mul32 256 (int32 (PAR_T1 c))))).
Definition partial_data2 : Z := mulu64 (uint64 (PAR_T2 c)) partial_data1.
Definition partial_data3 : Z := mulu64 partial_data1 partial_data1.
Definition partial_data4 : Z :=
  mul64 (int64 partial_data3) (int64 (PAR_T3 c)).
Definition partial_data5 : Z :=
  add64 (int64 (mulu64 partial_data2 262144)) partial_data4.
Definition partial_data6 : Z := div64 partial_data5 4294967269.
Definition t : Z := int32 (div64 (mul64 partial_data6 25) 16384).
End Formula.
End Temperature.

Module Pressure.
(** bme680.go, ReadPressureMult10Pa, lines 479-537.  Go reassigns
    partial_data1..6; the reassigned values carry a prime. *)
Section Formula.
Variables (ut up : Z) (c : CoeffBME680).

Definition partial_data1_t : Z :=
  uint64 (sub32 ut (int32 (mul32 256 (int32 (PAR_T1 c))))).
Definition partial_data2_t : Z := mulu64 (uint64 (PAR_T2 c)) partial_data1_t.
Definition partial_data3_t : Z := mulu64 partial_data1_t partial_data1_t.
Definition partial_data4_t : Z :=
  mul64 (int64 partial_data3_t) (int64 (PAR_T3 c)).
Definition partial_data5_t : Z :=
  add64 (int64 (mulu64 partial_data2_t 262144)) partial_data4_t.
Definition partial_data6_t : Z := div64 partial_data5_t 4294967269.
Definition t_lin : Z := partial_data6_t.

Definition partial_data1 : Z := mul64 t_lin t_lin.
Definition partial_data2 : Z := div64 partial_data1 64.
Definition partial_data3 : Z := div64 (mul64 partial_data2 t_lin) 256.
Definition partial_data4 : Z :=
  div64 (mul64 (int64 (PAR_P8 c)) partial_data3) 32.
Definition partial_data5 : Z :=
  mul64 (mul64 (int64 (PAR_P7 c)) partial_data1) 16.
Definition partial_data6 : Z :=
  mul64 (mul64 (int64 (PAR_P6 c)) t_lin) 4194304.
Definition offset : Z :=
  add64 (add64 (add64 (mul64 (int64 (PAR_P5 c)) 140737488355328)
                      partial_data4) partial_data5) partial_data6.

Definition partial_data2' : Z :=
  div64 (mul64 (int64 (PAR_P4 c)) partial_data3) 32.
Definition partial_data4' : Z :=
  mul64 (mul64 (int64 (PAR_P3 c)) partial_data1) 4.
Definition partial_data5' : Z :=
  mul64 (mul64 (sub64 (int64 (PAR_P2 c)) 16384) t_lin) 2097152.
Definition sensitivity : Z :=
  add64 (add64 (add64 (mul64 (sub64 (int64 (PAR_P1 c)) 16384) 70368744177664)
                      partial_data2') partial_data4') partial_data5'.

Definition partial_data1'' : Z :=
  mul64 (div64 sensitivity 16777216) (int64 up).
Definition partial_data2'' : Z := mul64 (int64 (PAR_P10 c)) t_lin.
Definition partial_data3'' : Z :=
  add64 partial_data2'' (mul64 65536 (int64 (PAR_P9 c))).
Definition partial_data4'' : Z :=
  div64 (mul64 partial_data3'' (int64 up)) 8192.
Definition partial_data5'' : Z :=
  div64 (mul64 partial_data4'' (int64 up)) 512.
Definition partial_data6'' : Z := int64 (mulu64 (uint64 up) (uint64 up)).

Definition partial_data2''' : Z :=
  div64 (mul64 (int64 (PAR_P11 c)) partial_data6'') 65536.
Definition partial_data3''' : Z :=
  div64 (mul64 partial_data2''' (int64 up)) 128.
Definition partial_data4''' : Z :=
  add64 (add64 (add64 (div64 offset 4) partial_data1'') partial_data5'')
        partial_data3'''.
Definition comp_press : Z :=
  uint32 (divu64 (mulu64 (uint64 partial_data4''') 25) 1099511627776).
End Formula.
End Pressure.

(** ** Errors and the I2C bus *)

(** Go's [error] values produced by the code under study.  The message
    texts are kept as constructors with their arguments. *)
Inductive error : Type :=
| ErrTransport (code : nat)               (* failure reported by the i2c library *)
| ErrShortRead                            (* fewer bytes than requested *)
| ErrUnexpectedEOF                        (* binary.Read ran out of bytes *)
| ErrCoeffNotBuilt                        (* "CoeffBME680 struct does not build" *)
| ErrCoefficient (name : string) (coef : Z) (* a coefficient rejected by checkCoefficient *)
| ErrSignature (signature : byte)         (* "signature 0x%x doesn't belong to BME680 series" *)
| ErrSensorId (expected got : byte)       (* "Sensor id should be 0x%X, but 0x%X received" *)
| ErrConversionTimeout.                   (* busy flag never cleared within budget *)

(** What the i2c library hands back: a value or an error. *)
Inductive result (A : Type) : Type :=
| Ok (a : A)
| Error (e : error).
Arguments Ok {A} a.
Arguments Error {A} e.

(** How a Go function ends: it returns a value, returns a non-nil error,
    or panics (index out of range, nil dereference). *)
Inductive outcome (A : Type) : Type :=
| Done (a : A)
| Fail (e : error)
| Panic.
Arguments Done {A} a.
Arguments Fail {A} e.
Arguments Panic {A}.

(** The operations of *i2c.I2C the drivers call. *)
Inductive I2C_op : Type :=
| OpReadRegU8 (reg : byte)
| OpWriteRegU8 (reg value : byte)
| OpReadRegBytes (reg : byte) (n : nat)
| OpWriteBytes (buf : list byte)
| OpReadBytes (n : nat).

Definition I2C_resp (op : I2C_op) : Type :=
  match op with
  | OpReadRegU8 _ => result byte
  | OpWriteRegU8 _ _ => result unit
  | OpReadRegBytes _ _ => result (list byte)
  | OpWriteBytes _ => result unit
  | OpReadBytes _ => result (list byte)
  end.

(** A driver function: a tree of bus operations ending in an outcome. *)
Inductive Prog (A : Type) : Type :=
| Ret (r : outcome A)
| Call (op : I2C_op) (k : I2C_resp op -> Prog A).
Arguments Ret {A} r.
Arguments Call {A} op k.

Definition ret {A} (a : A) : Prog A := Ret (Done a).
Definition fail {A} (e : error) : Prog A := Ret (Fail e).
Definition panic {A} : Prog A := Ret Panic.

(** Sequencing with Go's [if err != nil { return ..., err }]. *)
Fixpoint bind {A B} (m : Prog A) (f : A -> Prog B) : Prog B :=
  match m with
  | Ret (Done a) => f a
  | Ret (Fail e) => Ret (Fail e)
  | Ret Panic => Ret Panic
  | Call op k => Call op (fun r => bind (k r) f)
  end.

Declare Scope prog_scope.
Delimit Scope prog_scope with prog.
Notation "x <- m ;; k" := (bind m (fun x => k))
  (at level 61, m at next level, right associativity) : prog_scope.
Notation "m ;;; k" := (bind m (fun _ => k))
  (at level 61, right associativity) : prog_scope.
Local Open Scope prog_scope.

Definition of_result {A} (r : result A) : Prog A :=
  match r with
  | Ok a => ret a
  | Error e => fail e
  end.

Definition ReadRegU8 (reg : byte) : Prog byte :=
  Call (OpReadRegU8 reg) of_result.
Definition WriteRegU8 (reg value : byte) : Prog unit :=
  Call (OpWriteRegU8 reg value) of_result.
Definition ReadRegBytes (reg : byte) (n : nat) : Prog (list byte) :=
  Call (OpReadRegBytes reg n) of_result.
Definition WriteBytes (buf : list byte) : Prog unit :=
  Call (OpWriteBytes buf) of_result.
Definition ReadBytes (n : nat) : Prog (list byte) :=
  Call (OpReadBytes n) of_result.

(** [buf[i]]: panics when out of range. *)
Definition index (buf : list byte) (i : nat) : Prog byte :=
  match nth_error buf i with
  | Some b => ret b
  | None => panic
  end.

(** A transport: the device behind the bus, answering each operation
    from its state. *)
Record Transport : Type := mkTransport {
  bus : Type;
  respond : forall op : I2C_op, bus -> I2C_resp op * bus
}.

(** Running a driver function against a transport: its outcome, the
    state the device is left in, and the bus operations performed. *)
Fixpoint exec {A} (T : Transport) (p : Prog A) (s : bus T)
  : outcome A * bus T * list I2C_op :=
  match p with
  | Ret r => (r, s, [])
  | Call op k =>
      let '(resp, s1) := respond T op s in
      let '(r, s2, tr) := exec T (k resp) s1 in
      (r, s2, op :: tr)
  end.

Definition outcome_of {A} {T} (x : outcome A * bus T * list I2C_op) : outcome A :=
  fst (fst x).
Definition trace_of {A} {T} (x : outcome A * bus T * list I2C_op) : list I2C_op :=
  snd x.

(** Every bus operation a program can perform, on any transport and from
    any device state, satisfies [P]. *)
Definition performs_only {A} (P : I2C_op -> Prop) (p : Prog A) : Prop :=
  forall (T : Transport) (s : bus T), Forall P (trace_of (exec T p s)).

(** ** Accuracy modes (type AccuracyMode int, iota block) *)

Definition AccuracyMode : Type := Z.
Definition ACCURACY_ULTRA_LOW : AccuracyMode := 0.
Definition ACCURACY_LOW : AccuracyMode := 1.
Definition ACCURACY_STANDARD : AccuracyMode := 2.
Definition ACCURACY_HIGH : AccuracyMode := 3.
Definition ACCURACY_ULTRA_HIGH : AccuracyMode := 4.

(** ** Helpers of the package that bme680.go calls *)

(** Modelled from the spec: checkCoefficient is called by
    IsValidCoefficients with a coefficient widened to uint16 and the
    field's name; its body is not among the sources.  The spec has a
    coefficient invalid when it equals the empty or erased sentinel,
    0x0000 or 0xFFFF, and the failure names the field. *)
Definition checkCoefficient (coef : Z) (name : string) : option error :=
  if (coef =? 0x0000) || (coef =? 0xFFFF)
  then Some (ErrCoefficient name coef)
  else None.

(** Modelled from the spec: readDataToStruct is called by
    ReadCoefficients to fill a byte array from the bus; its body is not
    among the sources.  The spec has the load issue one read of the
    block, a failed or short read propagating as an error. *)
Definition readDataToStruct (byteCount : nat) : Prog (list byte) :=
  buf <- ReadBytes byteCount ;;
  if Nat.eqb (List.length buf) byteCount then ret buf else fail ErrShortRead.

(** Modelled from the spec: waitForCompletion is called by the raw
    reads with the sensor and the bus; its body is not among the
    sources.  The spec has a bounded poll loop over the variant's busy
    test: the first poll whose test is false ends it; when the budget of
    polls is used up it signals a conversion timeout. *)
Fixpoint waitForCompletion (IsBusy : Prog bool) (polls : nat) : Prog bool :=
  match polls with
  | O => fail ErrConversionTimeout
  | S polls' =>
      flag <- IsBusy ;;
      if flag then waitForCompletion IsBusy polls' else ret false
  end.

(** ** The BME680 sensor (type SensorBME680 and its methods) *)

Module BME680.

Record SensorBME680 : Type := mkSensorBME680 {
  Coeff : option CoeffBME680     (* *CoeffBME680, nil until loaded *)
}.

(** [binary.Read(buf, binary.LittleEndian, coeff)]: 21 uint8 fields
    taken from the buffer in declaration order. *)
Definition binary_Read_CoeffBME680 (buf : list byte) : Prog CoeffBME680 :=
  match buf with
  | b0 :: b1 :: b2 :: b3 :: b4 :: b5 :: b6 :: b7 :: b8 :: b9 :: b10 ::
    b11 :: b12 :: b13 :: b14 :: b15 :: b16 :: b17 :: b18 :: b19 :: b20 :: _ =>
      ret (mkCoeffBME680 b0 b1 b2 b3 b4 b5 b6 b7 b8 b9 b10
                         b11 b12 b13 b14 b15 b16 b17 b18 b19 b20)
  | _ => fail ErrUnexpectedEOF
  end.

(** The sequence of checks of IsValidCoefficients, lines 199-254:
    [err = check; if err != nil { return err }]. *)
Definition and_then (err : option error) (rest : option error) : option error :=
  match err with
  | Some e => Some e
  | None => rest
  end.

Section Sensor.

(** ACCURACY_HIGHEST is named by getOversamplingRation; the iota block
    at hand ends at ACCURACY_ULTRA_HIGH. *)
Variable ACCURACY_HIGHEST : AccuracyMode.

(** The poll budget of waitForCompletion. *)
Variable max_polls : nat.

Definition ReadSensorID : Prog byte :=
  id <- ReadRegU8 BME680_ID_REG ;;
  ret id.

Definition ReadCoefficients (v : SensorBME680) : Prog SensorBME680 :=
  WriteBytes [BME680_COEF_START] ;;;
  coef1 <- readDataToStruct BME680_COEF_BYTES ;;
  coeff <- binary_Read_CoeffBME680 coef1 ;;
  ret (mkSensorBME680 (Some coeff)).

Definition IsValidCoefficients (v : SensorBME680) : option error :=
  match Coeff v with
  | Some c =>
      and_then (checkCoefficient (uint16 (PAR_T1 c)) "PAR_T1")
     (and_then (checkCoefficient (uint16 (PAR_T2 c)) "PAR_T2")
     (and_then (checkCoefficient (uint16 (PAR_T3 c)) "PAR_T3")
     (and_then (checkCoefficient (uint16 (PAR_P1 c)) "PAR_P1")
     (and_then (checkCoefficient (uint16 (PAR_P2 c)) "PAR_P2")
     (and_then (checkCoefficient (uint16 (PAR_P3 c)) "PAR_P3")
     (and_then (checkCoefficient (uint16 (PAR_P5 c)) "PAR_P5")
     (and_then (checkCoefficient (uint16 (PAR_P6 c)) "PAR_P6")
     (and_then (checkCoefficient (uint16 (PAR_P7 c)) "PAR_P7")
     (and_then (checkCoefficient (uint16 (PAR_P8 c)) "PAR_P8")
     (and_then (checkCoefficient (uint16 (PAR_P9 c)) "PAR_P9")
     (and_then (checkCoefficient (uint16 (PAR_P10 c)) "PAR_P10")
     (and_then (checkCoefficient (uint16 (PAR_P11 c)) "PAR_P11")
      None))))))))))))
  | None => Some ErrCoeffNotBuilt
  end.

Definition RecognizeSignature (signature : byte) : result string :=
  match signature with
  | x25 => Ok "BME680"%string
  | _ => Error (ErrSignature signature)
  end.

Definition IsBusy : Prog bool :=
  b <- ReadRegU8 BME680_STATUS_REG ;;
  let b := Z.land (u8 b) 0x60 in
  ret (b =? 0).

Definition getOversamplingRation (accuracy : AccuracyMode) : Z :=
  if accuracy =? ACCURACY_ULTRA_LOW then 0
  else if accuracy =? ACCURACY_LOW then 1
  else if accuracy =? ACCURACY_STANDARD then 2
  else if accuracy =? ACCURACY_HIGH then 3
  else if accuracy =? ACCURACY_ULTRA_HIGH then 4
  else if accuracy =? ACCURACY_HIGHEST then 5
  else 0.

(** Line 361: [int32(uint32(buf[0]) + uint32(buf[1])<<8 + uint32(buf[2])<<16)]. *)
Definition assemble_u32 (b0 b1 b2 : byte) : Z :=
  int32 (addu32 (addu32 (uint32 (u8 b0)) (shlu32 (uint32 (u8 b1)) 8))
                (shlu32 (uint32 (u8 b2)) 16)).

(** Lines 389, 422, 427: [int32(buf[0]) + int32(buf[1])<<8 + int32(buf[2])<<16]. *)
Definition assemble_s32 (b0 b1 b2 : byte) : Z :=
  add32 (add32 (int32 (u8 b0)) (shl32 (int32 (u8 b1)) 8))
        (shl32 (int32 (u8 b2)) 16).

Definition power : byte :=
  byte_of_Z (Z.lor (Z.shiftl BME680_PWR_MODE_FORCED 4) 3).

Definition readUncompTemprature (accuracy : AccuracyMode) : Prog Z :=
  WriteRegU8 BME680_CONFIG (byte_of_Z (Z.shiftl BME680_coef_0 1)) ;;;
  let osrt := getOversamplingRation accuracy in
  WriteRegU8 BME680_OSR_REG (byte_of_Z (shlu8 osrt 5)) ;;;
  buf <- ReadRegBytes BME680_TEMP_OUT_MSB_LSB_XLSB 3 ;;
  b0 <- index buf 0 ;; b1 <- index buf 1 ;; b2 <- index buf 2 ;;
  let ut := assemble_u32 b0 b1 b2 in
  ret ut.

Definition readUncompPressure (accuracy : AccuracyMode) : Prog Z :=
  WriteRegU8 BME680_PWR_CTRL_REG power ;;;
  waitForCompletion IsBusy max_polls ;;;
  let osrp := getOversamplingRation accuracy in
  WriteRegU8 BME680_OSR_REG (byte_of_Z osrp) ;;;
  waitForCompletion IsBusy max_polls ;;;
  buf <- ReadRegBytes BME680_PRES_OUT_MSB_LSB_XLSB 3 ;;
  b0 <- index buf 0 ;; b1 <- index buf 1 ;; b2 <- index buf 2 ;;
  let up := assemble_s32 b0 b1 b2 in
  ret up.

Definition readUncompTempratureAndPressure (accuracy : AccuracyMode)
  : Prog (Z * Z) :=
  WriteRegU8 BME680_PWR_CTRL_REG power ;;;
  waitForCompletion IsBusy max_polls ;;;
  let osrt := getOversamplingRation ACCURACY_STANDARD in
  let osrp := getOversamplingRation accuracy in
  WriteRegU8 BME680_OSR_REG (byte_of_Z (Z.lor (shlu8 osrt 3) osrp)) ;;;
  waitForCompletion IsBusy max_polls ;;;
  buf <- ReadRegBytes BME680_TEMP_OUT_MSB_LSB_XLSB 3 ;;
  b0 <- index buf 0 ;; b1 <- index buf 1 ;; b2 <- index buf 2 ;;
  let ut := assemble_s32 b0 b1 b2 in
  buf <- ReadRegBytes BME680_PRES_OUT_MSB_LSB_XLSB 3 ;;
  b0 <- index buf 0 ;; b1 <- index buf 1 ;; b2 <- index buf 2 ;;
  let up := assemble_s32 b0 b1 b2 in
  ret (ut, up).

(** [v.Coeff.PAR_..()] after ReadCoefficients: a nil Coeff would panic. *)
Definition deref_Coeff (v : SensorBME680) : Prog CoeffBME680 :=
  match Coeff v with
  | Some c => ret c
  | None => panic
  end.

Definition ReadTemperatureMult100C (v : SensorBME680) (accuracy : AccuracyMode)
  : Prog (Z * SensorBME680) :=
  ut <- readUncompTemprature accuracy ;;
  v <- ReadCoefficients v ;;
  c <- deref_Coeff v ;;
  ret (Temperature.t ut c, v).

Definition ReadPressureMult10Pa (v : SensorBME680) (accuracy : AccuracyMode)
  : Prog (Z * SensorBME680) :=
  utup <- readUncompTempratureAndPressure accuracy ;;
  let '(ut, up) := utup in
  v <- ReadCoefficients v ;;
  c <- deref_Coeff v ;;
  ret (Pressure.comp_press ut up c, v).

Definition ReadHumidityMultQ2210 (accuracy : AccuracyMode)
  : Prog (bool * Z) :=
  ret (false, 0).

End Sensor.

End BME680.

(** ** Driver construction (package file with NewBMP) *)

Module Bmp.

Definition SensorType : Type := Z.
Definition BMP180_TYPE : SensorType := 0.
Definition BMP280_TYPE : SensorType := 1.

Definition ID_REG : byte := xd0.

(** type SensorInterface interface: the methods over the state of the
    implementing type.  SetDebug only switches logging, which is not
    modelled. *)
Record SensorInterface : Type := mkSensorInterface {
  self : Type;
  ReadCoefficients : self -> Prog self;
  IsValidCoefficients : self -> option error;
  GetSensorSignature : self -> byte;
  IsBusy : self -> Prog bool;
  ReadTemperatureMult100C : self -> AccuracyMode -> Prog (Z * self);
  ReadPressureMult10Pa : self -> AccuracyMode -> Prog (Z * self)
}.

(** A non-nil interface value: the dynamic type with its receiver. *)
Record Sensor : Type := mkSensor {
  impl : SensorInterface;
  receiver : self impl
}.

(** type BMP struct; the bus handle is the transport a run is given,
    the logger fields are not modelled. *)
Record BMP : Type := mkBMP {
  sensorType : SensorType;
  bmp : option Sensor;          (* nil for an unknown sensorType *)
  id : byte
}.

(** A method call on [this.bmp]: a nil interface value panics. *)
Definition deref_bmp (this : BMP) : Prog Sensor :=
  match bmp this with
  | Some s => ret s
  | None => panic
  end.

Definition readSensorID (this : BMP) : Prog BMP :=
  i <- ReadRegU8 ID_REG ;;
  ret (mkBMP (sensorType this) (bmp this) i).

Section Construction.

(** The values [&BMP180{...}] and [&BMP280{...}]; the two types are
    declared elsewhere in the package. *)
Variables BMP180 BMP280 : Sensor.

Definition NewBMP (sensorType : SensorType) : Prog BMP :=
  let v := mkBMP sensorType
             (if sensorType =? BMP180_TYPE then Some BMP180
              else if sensorType =? BMP280_TYPE then Some BMP280
              else None)
             x00 in
  v <- readSensorID v ;;
  s <- deref_bmp v ;;
  let signature := GetSensorSignature (impl s) (receiver s) in
  if negb (Byte.eqb (id v) signature)
  then fail (ErrSensorId signature (id v))
  else
    r <- ReadCoefficients (impl s) (receiver s) ;;
    ret (mkBMP (Bmp.sensorType v) (Some (mkSensor (impl s) r)) (id v)).

End Construction.

(** func (this *BMP) IsValidCoefficients() error *)
Definition BMP_IsValidCoefficients (this : BMP) : outcome unit :=
  match bmp this with
  | Some s =>
      match IsValidCoefficients (impl s) (receiver s) with
      | Some e => Fail e
      | None => Done tt
      end
  | None => Panic
  end.

End Bmp.

(** ** The reference temperature formula, as the specification words it *)

Module Reference.
(** Written from the specification, for comparison with
    [Temperature.t]: widen raw minus 256*PAR_T1, multiply by PAR_T2,
    square, multiply by PAR_T3, combine with the 2^18 scale, divide by
    2^32 at the linearization step, then multiply by 25 and divide by
    16384. *)
Section Formula.
Variables (ut : Z) (c : CoeffBME680).

Definition widened : Z := uint64 (sub32 ut (mul32 256 (PAR_T1 c))).
Definition scaled : Z := mulu64 (PAR_T2 c) widened.
Definition squared : Z := mulu64 widened widened.
Definition curved : Z := mul64 (int64 squared) (PAR_T3 c).
Definition combined : Z := add64 (int64 (mulu64 scaled (2 ^ 18))) curved.
Definition linearized : Z := div64 combined (2 ^ 32).
Definition centi_celsius : Z := int32 (div64 (mul64 linearized 25) 16384).
End Formula.
End Reference.

(** ** Devices used to run the driver on concrete inputs *)

Module Device.

(** The register [k] places after [reg]. *)
Definition next_addr (reg : byte) (k : nat) : byte :=
  byte_of_Z (u8 reg + Z.of_nat k).

Definition read_block (regs : byte -> byte) (reg : byte) (n : nat) : list byte :=
  map (fun k => regs (next_addr reg k)) (seq 0 n).

(** A chip with fixed register contents.  Register writes are
    acknowledged; a bare write of one byte sets the address pointer that
    a following bare read starts from. *)
Definition register_file (regs : byte -> byte) : Transport :=
  mkTransport byte
    (fun op ptr =>
       match op as o return I2C_resp o * byte with
       | OpReadRegU8 reg => (Ok (regs reg), ptr)
       | OpWriteRegU8 _ _ => (Ok tt, ptr)
       | OpReadRegBytes reg n => (Ok (read_block regs reg n), ptr)
       | OpWriteBytes buf =>
           (Ok tt, match buf with a :: _ => a | [] => ptr end)
       | OpReadBytes n => (Ok (read_block regs ptr n), ptr)
       end).

(** Raw temperature 0x7CCC91 at 0x22..0x24 (least significant byte
    first), PAR_T1 = 27504, PAR_T2 = 18640, PAR_T3 = -7 in the
    calibration block, every other register zero. *)
Definition regs_fixture (r : byte) : byte :=
  match r with
  | x22 => x91 | x23 => xcc | x24 => x7c
  | x31 => x70 | x32 => x6b
  | x33 => xd0 | x34 => x48
  | x35 => xf9
  | _ => x00
  end.

Definition coeff_fixture : CoeffBME680 :=
  mkCoeffBME680 x70 x6b xd0 x48 xf9 x00 x00 x00 x00 x00 x00
                x00 x00 x00 x00 x00 x00 x00 x00 x00 x00.

(** Both sample registers hold the bytes b0, b1, b2 in address order;
    the status register has both tracked bits set. *)
Definition regs_sample (b0 b1 b2 : byte) (r : byte) : byte :=
  match r with
  | x03 => x60
  | x22 => b0 | x23 => b1 | x24 => b2
  | x04 => b0 | x05 => b1 | x06 => b2
  | _ => x00
  end.

(** Only the status register is set. *)
Definition regs_status (status : byte) (r : byte) : byte :=
  match r with
  | x03 => status
  | _ => x00
  end.

(** Identity byte [idb] at ID_REG, every other register zero: an
    erased calibration block. *)
Definition regs_erased (idb : byte) (r : byte) : byte :=
  match r with
  | xd0 => idb
  | _ => x00
  end.

(** A sensor value built from the SensorBME680 methods, the one
    implementation at hand, with the identity byte its
    RecognizeSignature accepts. *)
Definition bme680_interface (highest : AccuracyMode) (max_polls : nat)
  : Bmp.SensorInterface :=
  Bmp.mkSensorInterface
    BME680.SensorBME680
    BME680.ReadCoefficients
    BME680.IsValidCoefficients
    (fun _ => x25)
    (fun _ => BME680.IsBusy)
    (BME680.ReadTemperatureMult100C highest)
    (BME680.ReadPressureMult10Pa highest max_polls).

Definition bme680_sensor (highest : AccuracyMode) (max_polls : nat)
  : Bmp.Sensor :=
  Bmp.mkSensor (bme680_interface highest max_polls)
               (BME680.mkSensorBME680 None).

End Device.


(** ** Predicates on bus operations used in the statements *)

Import BME680.

(** The operation neither writes the power-control register nor reads
    the status register. *)
Definition no_trigger_no_poll (op : I2C_op) : Prop :=
  (forall value, op <> OpWriteRegU8 BME680_PWR_CTRL_REG value) /\
  op <> OpReadRegU8 BME680_STATUS_REG.

(** The fields of a byte written to the oversampling register by the
    combined read: bits 3..5 for temperature, bits 0..2 for pressure. *)
Definition osr_temperature_field (value : byte) : Z :=
  Z.land (Z.shiftr (u8 value) 3) 7.
Definition osr_pressure_field (value : byte) : Z :=
  Z.land (u8 value) 7.

(** If the operation writes the oversampling register, the temperature
    field holds [osrt] and the pressure field holds [osrp]. *)
Definition osr_fields (osrt osrp : Z) (op : I2C_op) : Prop :=
  forall value, op = OpWriteRegU8 BME680_OSR_REG value ->
    osr_temperature_field value = osrt /\ osr_pressure_field value = osrp.

(** The empty or erased sentinel of a coefficient widened to uint16. *)
Definition is_sentinel (coef : Z) : bool :=
  (coef =? 0x0000) || (coef =? 0xFFFF).

(** The coefficients IsValidCoefficients checks, widened as at the call
    sites and in the order of the checks (lines 199-251); PAR_P4 is not
    among them. *)
Definition checked_fields : list (string * (CoeffBME680 -> Z)) :=
  [ ("PAR_T1", fun c => uint16 (PAR_T1 c));
    ("PAR_T2", fun c => uint16 (PAR_T2 c));
    ("PAR_T3", fun c => uint16 (PAR_T3 c));
    ("PAR_P1", fun c => uint16 (PAR_P1 c));
    ("PAR_P2", fun c => uint16 (PAR_P2 c));
    ("PAR_P3", fun c => uint16 (PAR_P3 c));
    ("PAR_P5", fun c => uint16 (PAR_P5 c));
    ("PAR_P6", fun c => uint16 (PAR_P6 c));
    ("PAR_P7", fun c => uint16 (PAR_P7 c));
    ("PAR_P8", fun c => uint16 (PAR_P8 c));
    ("PAR_P9", fun c => uint16 (PAR_P9 c));
    ("PAR_P10", fun c => uint16 (PAR_P10 c));
    ("PAR_P11", fun c => uint16 (PAR_P11 c)) ]%string.

Definition not_sentinel_in (c : CoeffBME680) (f : string * (CoeffBME680 -> Z)) : Prop :=
  is_sentinel (snd f c) = false.

(** Checking a list of fields in order, stopping at the first failure. *)
Fixpoint check_in_order (fields : list (string * (CoeffBME680 -> Z)))
         (c : CoeffBME680) : option error :=
  match fields with
  | [] => None
  | (name, get) :: rest =>
      and_then (checkCoefficient (get c) name) (check_in_order rest c)
  end.

(** The sensor value NewBMP constructs for a supported sensor type. *)
Definition constructed (BMP180 BMP280 : Bmp.Sensor) (sensorType : Bmp.SensorType)
           (sns : Bmp.Sensor) : Prop :=
  (sensorType = Bmp.BMP180_TYPE /\ sns = BMP180) \/
  (sensorType = Bmp.BMP280_TYPE /\ sns = BMP280).

(** Calibration blocks used below: every byte 0x01, every byte erased,
    and the first with the two bytes of PAR_P1 erased. *)
Definition coeff_ones : CoeffBME680 :=
  mkCoeffBME680 x01 x01 x01 x01 x01 x01 x01 x01 x01 x01 x01
                x01 x01 x01 x01 x01 x01 x01 x01 x01 x01.
Definition coeff_erased : CoeffBME680 :=
  mkCoeffBME680 x00 x00 x00 x00 x00 x00 x00 x00 x00 x00 x00
                x00 x00 x00 x00 x00 x00 x00 x00 x00 x00.
Definition coeff_P1_erased : CoeffBME680 :=
  mkCoeffBME680 x01 x01 x01 x01 x01 x00 x00 x01 x01 x01 x01
                x01 x01 x01 x01 x01 x01 x01 x01 x01 x01.

(** ** Further definitions used in the statements *)

(** A w-bit register value read in two's complement. *)
Definition twos_complement (w raw : Z) : Z :=
  if raw <? 2 ^ (w - 1) then raw else raw - 2 ^ w.

(** The 16-bit value of two calibration registers, low byte first. *)
Definition low_high (lo hi : byte) : Z := u8 lo + 256 * u8 hi.

(** An erased register byte. *)
Definition erased_byte (b : byte) : Prop := b = x00 \/ b = xff.

(** Both bytes of a 16-bit coefficient erased the same way. *)
Definition erased_pair (lo hi : byte) : Prop :=
  (lo = x00 /\ hi = x00) \/ (lo = xff /\ hi = xff).

(** The coefficient set with register 0x3B (PAR_P4) replaced. *)
Definition with_COEF_3B (c : CoeffBME680) (b : byte) : CoeffBME680 :=
  mkCoeffBME680 (COEF_31 c) (COEF_32 c) (COEF_33 c) (COEF_34 c) (COEF_35 c)
                (COEF_36 c) (COEF_37 c) (COEF_38 c) (COEF_39 c) (COEF_3A c)
                b (COEF_3C c) (COEF_3D c) (COEF_3E c) (COEF_3F c)
                (COEF_40 c) (COEF_41 c) (COEF_42 c) (COEF_43 c) (COEF_44 c)
                (COEF_45 c).

(** The temperature formula up to the linearizing division, computed
    in unbounded integers. *)
Definition exact_partial_data5 (ut : Z) (c : CoeffBME680) : Z :=
  let d := ut - 256 * PAR_T1 c in
  PAR_T2 c * d * 262144 + d * d * PAR_T3 c.

(** What a chip with register contents [regs] holds: the calibration
    block at 0x31..0x45 and the raw samples at 0x22..0x24 and
    0x04..0x06, first byte least significant. *)
Definition coeff_at (regs : byte -> byte) : CoeffBME680 :=
  mkCoeffBME680 (regs x31) (regs x32) (regs x33) (regs x34) (regs x35)
                (regs x36) (regs x37) (regs x38) (regs x39) (regs x3a)
                (regs x3b) (regs x3c) (regs x3d) (regs x3e) (regs x3f)
                (regs x40) (regs x41) (regs x42) (regs x43) (regs x44)
                (regs x45).
Definition raw_temperature_at (regs : byte -> byte) : Z :=
  u8 (regs x22) + u8 (regs x23) * 256 + u8 (regs x24) * 65536.
Definition raw_pressure_at (regs : byte -> byte) : Z :=
  u8 (regs x04) + u8 (regs x05) * 256 + u8 (regs x06) * 65536.

(** [l] is an initial segment of [full]. *)
Definition is_prefix {A} (l full : list A) : Prop :=
  exists rest, l ++ rest = full.

(** The bus operations of a complete temperature read, in order. *)
Definition temperature_ops (highest : AccuracyMode) (accuracy : AccuracyMode)
  : list I2C_op :=
  [ OpWriteRegU8 BME680_CONFIG x00;
    OpWriteRegU8 BME680_OSR_REG
      (byte_of_Z (shlu8 (getOversamplingRation highest accuracy) 5));
    OpReadRegBytes BME680_TEMP_OUT_MSB_LSB_XLSB 3;
    OpWriteBytes [BME680_COEF_START];
    OpReadBytes BME680_COEF_BYTES ].

(** The operation belongs to the pressure accessor's repertoire. *)
Definition pressure_footprint (op : I2C_op) : Prop :=
  op = OpWriteRegU8 BME680_PWR_CTRL_REG x13 \/
  op = OpReadRegU8 BME680_STATUS_REG \/
  (exists value, op = OpWriteRegU8 BME680_OSR_REG value) \/
  op = OpReadRegBytes BME680_TEMP_OUT_MSB_LSB_XLSB 3 \/
  op = OpReadRegBytes BME680_PRES_OUT_MSB_LSB_XLSB 3 \/
  op = OpWriteBytes [BME680_COEF_START] \/
  op = OpReadBytes BME680_COEF_BYTES.

(** A bus on which every operation fails with [e]. *)
Definition dead_bus (e : error) : Transport :=
  mkTransport unit
    (fun op s =>
       match op as o return I2C_resp o * unit with
       | OpReadRegU8 _ => (Error e, s)
       | OpWriteRegU8 _ _ => (Error e, s)
       | OpReadRegBytes _ _ => (Error e, s)
       | OpWriteBytes _ => (Error e, s)
       | OpReadBytes _ => (Error e, s)
       end).

(** A bus that answers single-register reads with [idb] and fails
    every other operation with [e]. *)
Definition id_only_bus (idb : byte) (e : error) : Transport :=
  mkTransport unit
    (fun op s =>
       match op as o return I2C_resp o * unit with
       | OpReadRegU8 _ => (Ok idb, s)
       | OpWriteRegU8 _ _ => (Error e, s)
       | OpReadRegBytes _ _ => (Error e, s)
       | OpWriteBytes _ => (Error e, s)
       | OpReadBytes _ => (Error e, s)
       end).

(** On every transport and from every device state, the bus operations
    of [p] are an initial segment of [ops], and all of [ops] when [p]
    returns a value. *)
Definition runs_through {A} (p : Prog A) (ops : list I2C_op) : Prop :=
  forall (T : Transport) (s : bus T),
    is_prefix (trace_of (exec T p s)) ops /\
    (forall a, outcome_of (exec T p s) = Done a -> trace_of (exec T p s) = ops).

(** If the operation writes the oversampling register, the byte
    written has the value [z]. *)
Definition osr_value (z : Z) (op : I2C_op) : Prop :=
  forall value, op = OpWriteRegU8 BME680_OSR_REG value -> u8 value = z.

(** The status byte shows a tracked bit, so that IsBusy answers false. *)
Definition status_ready (regs : byte -> byte) : Prop :=
  (Z.land (u8 (regs BME680_STATUS_REG)) 0x60 =? 0) = false.

(** The device state after the bus operations [ops] have been answered
    in turn, starting from [s]. *)
Fixpoint state_after (T : Transport) (s : bus T) (ops : list I2C_op) : bus T :=
  match ops with
  | [] => s
  | op :: rest => state_after T (snd (respond T op s)) rest
  end.

(** The fixture's temperature coefficients, every pressure register
    0x01 except 0x3B (PAR_P4) and 0x41 (PAR_P8), which are given. *)
Definition coeff_P4_P8 (p4 p8 : byte) : CoeffBME680 :=
  mkCoeffBME680 x70 x6b xd0 x48 xf9 x01 x01 x01 x01 x01 p4
                x01 x01 x01 x01 x01 p8 x01 x01 x01 x01.

(** * Properties *)

(** ** Bytes and fixed-width conversions *)

Lemma u8_range (b : byte) : 0 <= u8 b < 256.
Proof. destruct b; vm_compute; split; congruence. Qed.

Lemma to_unsigned_small (w z : Z) :
  0 <= w -> 0 <= z < 2 ^ w -> to_unsigned w z = z.
Proof. intros _ Hz. unfold to_unsigned. now apply Z.mod_small. Qed.

Lemma to_signed_small (w z : Z) :
  0 < w -> - 2 ^ (w - 1) <= z < 2 ^ (w - 1) -> to_signed w z = z.
Proof.
  intros Hw Hz. unfold to_signed.
  assert (E : 2 ^ w = 2 * 2 ^ (w - 1)).
  { replace w with (Z.succ (w - 1)) at 1 by lia. apply Z.pow_succ_r. lia. }
  rewrite Z.mod_small; lia.
Qed.

Lemma lor_shiftl_8 (h l : Z) :
  0 <= h -> 0 <= l < 256 -> Z.lor (Z.shiftl h 8) l = h * 256 + l.
Proof.
  intros Hh Hl.
  assert (D : Z.land (Z.shiftl h 8) l = 0).
  { apply Z.bits_inj'. intros n Hn.
    rewrite Z.land_spec, Z.bits_0.
    destruct (Z.ltb_spec n 8) as [Hlt | Hge].
    - rewrite Z.shiftl_spec_low by assumption. reflexivity.
    - destruct (Z.eq_dec l 0) as [-> | Hnz].
      + rewrite Z.bits_0. apply andb_false_r.
      + rewrite (Z.bits_above_log2 l n); [apply andb_false_r | lia |].
        assert (Z.log2 l < 8) by (apply Z.log2_lt_pow2; [lia | exact (proj2 Hl)]).
        lia. }
  rewrite <- Z.lxor_lor by exact D.
  rewrite <- Z.add_nocarry_lxor by exact D.
  rewrite Z.shiftl_mul_pow2 by lia. reflexivity.
Qed.

Lemma hi_lo_value (hi lo : byte) : hi_lo hi lo = u8 hi * 256 + u8 lo.
Proof.
  pose proof (u8_range hi) as Hh. pose proof (u8_range lo) as Hl.
  unfold hi_lo, shlu16, uint16.
  rewrite (to_unsigned_small 16 (u8 hi)) by (change (2 ^ 16) with 65536; lia).
  rewrite (to_unsigned_small 16 (u8 lo)) by (change (2 ^ 16) with 65536; lia).
  rewrite to_unsigned_small.
  - apply lor_shiftl_8; lia.
  - lia.
  - rewrite Z.shiftl_mul_pow2 by lia.
    change (2 ^ 8) with 256. change (2 ^ 16) with 65536. lia.
Qed.

Lemma hi_lo_range (hi lo : byte) : 0 <= hi_lo hi lo < 65536.
Proof.
  rewrite hi_lo_value.
  pose proof (u8_range hi). pose proof (u8_range lo). lia.
Qed.

(** ** Runs of sequenced programs *)

Lemma exec_bind {A B} (T : Transport) (m : Prog A) (f : A -> Prog B) (s : bus T) :
  exec T (bind m f) s =
  let '(r, s1, tr) := exec T m s in
  match r with
  | Done a => let '(r2, s2, tr2) := exec T (f a) s1 in (r2, s2, tr ++ tr2)
  | Fail e => (Fail e, s1, tr)
  | Panic => (Panic, s1, tr)
  end.
Proof.
  revert s. induction m as [r | op k IH]; intros s.
  - destruct r as [a | e |]; simpl; [ | reflexivity | reflexivity ].
    destruct (exec T (f a) s) as [[r2 s2] tr2]. reflexivity.
  - simpl. destruct (respond T op s) as [resp s1].
    rewrite IH. destruct (exec T (k resp) s1) as [[r s2] tr].
    destruct r as [a | e |]; [ | reflexivity | reflexivity ].
    destruct (exec T (f a) s2) as [[r2 s3] tr2]. reflexivity.
Qed.

Lemma performs_only_Ret {A} (P : I2C_op -> Prop) (r : outcome A) :
  performs_only P (Ret r).
Proof. intros T s. constructor. Qed.

Lemma performs_only_Call {A} (P : I2C_op -> Prop) (op : I2C_op)
      (k : I2C_resp op -> Prog A) :
  P op -> (forall r, performs_only P (k r)) -> performs_only P (Call op k).
Proof.
  intros Hop Hk T s. unfold trace_of. simpl.
  destruct (respond T op s) as [resp s1].
  specialize (Hk resp T s1). unfold trace_of in Hk.
  destruct (exec T (k resp) s1) as [[r s2] tr]. simpl in *.
  now constructor.
Qed.

Lemma performs_only_bind {A B} (P : I2C_op -> Prop) (m : Prog A) (f : A -> Prog B) :
  performs_only P m -> (forall a, performs_only P (f a)) ->
  performs_only P (bind m f).
Proof.
  intros Hm Hf T s. unfold trace_of. rewrite exec_bind.
  specialize (Hm T s). unfold trace_of in Hm.
  destruct (exec T m s) as [[r s1] tr]. simpl in Hm.
  destruct r as [a | e |]; simpl; try assumption.
  specialize (Hf a T s1). unfold trace_of in Hf.
  destruct (exec T (f a) s1) as [[r2 s2] tr2]. simpl in *.
  apply Forall_app. now split.
Qed.

Lemma performs_only_of_result {A} (P : I2C_op -> Prop) (r : result A) :
  performs_only P (of_result r).
Proof. destruct r; apply performs_only_Ret. Qed.

Lemma performs_only_index (P : I2C_op -> Prop) (buf : list byte) (i : nat) :
  performs_only P (index buf i).
Proof. unfold index. destruct (nth_error buf i); apply performs_only_Ret. Qed.

Lemma performs_only_waitForCompletion (P : I2C_op -> Prop) (n : nat) :
  P (OpReadRegU8 BME680_STATUS_REG) ->
  performs_only P (waitForCompletion IsBusy n).
Proof.
  intros HP. induction n as [| n IH]; cbn [waitForCompletion].
  - apply performs_only_Ret.
  - apply performs_only_bind.
    + unfold IsBusy. apply performs_only_bind.
      * apply performs_only_Call; [assumption | intros r; apply performs_only_of_result].
      * intros b. apply performs_only_Ret.
    + intros [|]; [exact IH | apply performs_only_Ret].
Qed.

Lemma performs_only_ReadCoefficients (P : I2C_op -> Prop) (v : SensorBME680) :
  P (OpWriteBytes [BME680_COEF_START]) -> P (OpReadBytes BME680_COEF_BYTES) ->
  performs_only P (ReadCoefficients v).
Proof.
  intros HW HR. unfold ReadCoefficients.
  apply performs_only_bind.
  { apply performs_only_Call; [assumption | intros r; apply performs_only_of_result]. }
  intros _. apply performs_only_bind.
  { unfold readDataToStruct. apply performs_only_bind.
    - apply performs_only_Call; [assumption | intros r; apply performs_only_of_result].
    - intros buf. destruct (Nat.eqb _ _); apply performs_only_Ret. }
  intros coef1. apply performs_only_bind.
  { unfold binary_Read_CoeffBME680.
    do 21 (destruct coef1 as [| ? coef1]; [apply performs_only_Ret |]).
    apply performs_only_Ret. }
  intros coeff. apply performs_only_Ret.
Qed.

(** ** Temperature compensation *)

(** The steps before the linearizing division are those of the
    reference formula; the code and the reference part at the divisor. *)
Lemma partial_data5_is_reference_combined (ut : Z) (c : CoeffBME680) :
  Temperature.partial_data5 ut c = Reference.combined ut c.
Proof.
  unfold Temperature.partial_data5, Reference.combined,
    Temperature.partial_data4, Reference.curved,
    Temperature.partial_data3, Reference.squared,
    Temperature.partial_data2, Reference.scaled,
    Temperature.partial_data1, Reference.widened.
  assert (H1 : int32 (PAR_T1 c) = PAR_T1 c).
  { unfold PAR_T1. pose proof (hi_lo_range (COEF_32 c) (COEF_31 c)).
    apply to_signed_small; [lia |]. change (2 ^ (32 - 1)) with 2147483648. lia. }
  assert (H2 : int32 (mul32 256 (PAR_T1 c)) = mul32 256 (PAR_T1 c)).
  { unfold PAR_T1, mul32. pose proof (hi_lo_range (COEF_32 c) (COEF_31 c)).
    rewrite (to_signed_small 32 (256 * _)).
    - apply to_signed_small; [lia |]. change (2 ^ (32 - 1)) with 2147483648. lia.
    - lia.
    - change (2 ^ (32 - 1)) with 2147483648. lia. }
  assert (H3 : uint64 (PAR_T2 c) = PAR_T2 c).
  { unfold PAR_T2, uint16. pose proof (hi_lo_range (COEF_34 c) (COEF_33 c)).
    rewrite to_unsigned_small by (change (2 ^ 16) with 65536; lia).
    apply to_unsigned_small; [lia |].
    change (2 ^ 64) with 18446744073709551616. lia. }
  assert (H4 : int64 (PAR_T3 c) = PAR_T3 c).
  { unfold PAR_T3. destruct (COEF_35 c); vm_compute; reflexivity. }
  rewrite H1, H2, H3, H4. reflexivity.
Qed.

(** C1: at raw sample 0x7CCC91 with PAR_T1 = 27504, PAR_T2 = 18640 and
    PAR_T3 = -7, ReadTemperatureMult100C computes 1972 hundredths of a
    degree where the reference formula, which divides by 2^32 at the
    linearization step, gives 1971: the code divides by 4294967269, and
    every step before that division agrees with the reference. *)
Theorem ReadTemperatureMult100C_departs_from_reference :
  Temperature.t 8178833 Device.coeff_fixture = 1972 /\
  Reference.centi_celsius 8178833 Device.coeff_fixture = 1971 /\
  Temperature.partial_data5 8178833 Device.coeff_fixture
  = Reference.combined 8178833 Device.coeff_fixture /\
  Temperature.partial_data6 8178833 Device.coeff_fixture
  = Z.quot (Reference.combined 8178833 Device.coeff_fixture) 4294967269 /\
  4294967269 <> 2 ^ 32 /\
  outcome_of
    (exec (Device.register_file Device.regs_fixture)
          (ReadTemperatureMult100C 5 (mkSensorBME680 None) ACCURACY_STANDARD) x00)
  = Done (1972, mkSensorBME680 (Some Device.coeff_fixture)).
Proof. vm_compute. repeat split; congruence. Qed.

(** C2: for every raw temperature sample and every coefficient set, the
    linearized intermediate t_lin that ReadPressureMult10Pa computes is
    the value partial_data6 that ReadTemperatureMult100C computes from
    the same sample and coefficients; the pressure formula takes it
    unchanged as its temperature input, and the temperature result is
    that same intermediate times 25 over 16384. *)
Theorem t_lin_is_temperature_partial_data6 (ut : Z) (c : CoeffBME680) :
  Pressure.t_lin ut c = Temperature.partial_data6 ut c /\
  Pressure.partial_data1 ut c
  = mul64 (Temperature.partial_data6 ut c) (Temperature.partial_data6 ut c) /\
  Temperature.t ut c
  = int32 (div64 (mul64 (Pressure.t_lin ut c) 25) 16384).
Proof.
  assert (E : Pressure.t_lin ut c = Temperature.partial_data6 ut c).
  { unfold Pressure.t_lin, Pressure.partial_data6_t, Pressure.partial_data5_t,
      Pressure.partial_data4_t, Pressure.partial_data3_t,
      Pressure.partial_data2_t, Pressure.partial_data1_t.
    unfold Temperature.partial_data6, Temperature.partial_data5,
      Temperature.partial_data4, Temperature.partial_data3,
      Temperature.partial_data2, Temperature.partial_data1.
    reflexivity. }
  split; [exact E | split].
  - unfold Pressure.partial_data1. rewrite E. reflexivity.
  - unfold Temperature.t. rewrite E. reflexivity.
Qed.

(** ** The busy test *)

Lemma IsBusy_outcome (T : Transport) (s s1 : bus T) (b : byte) :
  respond T (OpReadRegU8 BME680_STATUS_REG) s = (Ok b, s1) ->
  exec T IsBusy s
  = (Done (Z.land (u8 b) 0x60 =? 0), s1, [OpReadRegU8 BME680_STATUS_REG]).
Proof. intros H. unfold IsBusy. simpl. rewrite H. reflexivity. Qed.

(** C3, counterexample: with both tracked bits of the status register
    clear (status byte 0x00) IsBusy reports busy, and with both set
    (0x60), or either one set (0x20, 0x40), it reports not busy. *)
Theorem IsBusy_true_when_tracked_bits_clear :
  outcome_of (exec (Device.register_file (Device.regs_status x00)) IsBusy x00)
  = Done true /\
  outcome_of (exec (Device.register_file (Device.regs_status x60)) IsBusy x00)
  = Done false /\
  outcome_of (exec (Device.register_file (Device.regs_status x20)) IsBusy x00)
  = Done false /\
  outcome_of (exec (Device.register_file (Device.regs_status x40)) IsBusy x00)
  = Done false.
Proof. vm_compute. repeat split; reflexivity. Qed.

(** C3, as the code has it: the bits under the mask 0x60 are the
    pressure and temperature done flags.  For every status register
    byte b, on every transport that answers the status read with b,
    IsBusy reports busy (true) exactly when both tracked bits are clear,
    and not busy (false) exactly when at least one tracked bit is set. *)
Theorem IsBusy_busy_iff_no_done_bit
        (T : Transport) (s s1 : bus T) (b : byte) :
  respond T (OpReadRegU8 BME680_STATUS_REG) s = (Ok b, s1) ->
  exists busy,
    outcome_of (exec T IsBusy s) = Done busy /\
    (busy = true <-> Z.land (u8 b) 0x60 = 0) /\
    (busy = false <-> Z.land (u8 b) 0x60 <> 0).
Proof.
  intros H. rewrite (IsBusy_outcome T s s1 b H).
  exists (Z.land (u8 b) 0x60 =? 0). split; [reflexivity |].
  destruct (Z.eqb_spec (Z.land (u8 b) 0x60) 0) as [E | N]; split; split;
    intros; try congruence; try reflexivity.
Qed.

Lemma IsBusy_busy_iff_no_done_bit_witness :
  exists busy,
    outcome_of (exec (Device.register_file (Device.regs_status x20)) IsBusy x00)
    = Done busy /\
    (busy = true <-> Z.land (u8 x20) 0x60 = 0) /\
    (busy = false <-> Z.land (u8 x20) 0x60 <> 0).
Proof.
  apply (IsBusy_busy_iff_no_done_bit
           (Device.register_file (Device.regs_status x20)) x00 x00 x20).
  reflexivity.
Defined.

(** ** Raw samples *)

Lemma assemble_u32_value (b0 b1 b2 : byte) :
  assemble_u32 b0 b1 b2 = u8 b0 + u8 b1 * 256 + u8 b2 * 65536.
Proof.
  pose proof (u8_range b0). pose proof (u8_range b1). pose proof (u8_range b2).
  unfold assemble_u32, addu32, shlu32, uint32, int32.
  rewrite !Z.shiftl_mul_pow2 by lia.
  change (2 ^ 8) with 256. change (2 ^ 16) with 65536.
  rewrite !(to_unsigned_small 32 (u8 _)) by (change (2 ^ 32) with 4294967296; lia).
  rewrite (to_unsigned_small 32 (u8 b1 * 256)) by (change (2 ^ 32) with 4294967296; lia).
  rewrite (to_unsigned_small 32 (u8 b2 * 65536)) by (change (2 ^ 32) with 4294967296; lia).
  rewrite (to_unsigned_small 32 (u8 b0 + _)) by (change (2 ^ 32) with 4294967296; lia).
  rewrite to_unsigned_small by (change (2 ^ 32) with 4294967296; lia).
  apply to_signed_small; [lia |]. change (2 ^ (32 - 1)) with 2147483648. lia.
Qed.

Lemma assemble_s32_value (b0 b1 b2 : byte) :
  assemble_s32 b0 b1 b2 = u8 b0 + u8 b1 * 256 + u8 b2 * 65536.
Proof.
  pose proof (u8_range b0). pose proof (u8_range b1). pose proof (u8_range b2).
  assert (S : forall z, -2147483648 <= z < 2147483648 -> int32 z = z).
  { intros z Hz. apply to_signed_small; [lia |].
    change (2 ^ (32 - 1)) with 2147483648. lia. }
  unfold assemble_s32, add32, shl32.
  rewrite !(S (u8 _)) by lia.
  rewrite !Z.shiftl_mul_pow2 by lia.
  change (2 ^ 8) with 256. change (2 ^ 16) with 65536.
  rewrite (S (u8 b1 * 256)) by lia.
  rewrite (S (u8 b2 * 65536)) by lia.
  rewrite (S (u8 b0 + _)) by lia.
  apply S. lia.
Qed.

Lemma readUncompTemprature_on_sample (highest : AccuracyMode)
      (accuracy : AccuracyMode) (b0 b1 b2 ptr : byte) :
  outcome_of (exec (Device.register_file (Device.regs_sample b0 b1 b2))
                   (readUncompTemprature highest accuracy) ptr)
  = Done (assemble_u32 b0 b1 b2).
Proof. reflexivity. Qed.

Lemma readUncompPressure_on_sample (highest : AccuracyMode) (polls : nat)
      (accuracy : AccuracyMode) (b0 b1 b2 ptr : byte) :
  outcome_of (exec (Device.register_file (Device.regs_sample b0 b1 b2))
                   (readUncompPressure highest (S polls) accuracy) ptr)
  = Done (assemble_s32 b0 b1 b2).
Proof. reflexivity. Qed.

(** C4, as the code has it: for every 3-byte register buffer b0, b1, b2
    the raw sample is assembled with the first byte least significant,
    value = buf[0] + buf[1]*256 + buf[2]*65536, a 24-bit unsigned value;
    readUncompTemprature and readUncompPressure return that value when
    the sample registers hold the three bytes in address order. *)
Theorem raw_sample_first_byte_least_significant
        (highest : AccuracyMode) (polls : nat) (accuracy : AccuracyMode)
        (b0 b1 b2 ptr : byte) :
  let value := u8 b0 + u8 b1 * 256 + u8 b2 * 65536 in
  assemble_u32 b0 b1 b2 = value /\
  assemble_s32 b0 b1 b2 = value /\
  0 <= value < 2 ^ 24 /\
  outcome_of (exec (Device.register_file (Device.regs_sample b0 b1 b2))
                   (readUncompTemprature highest accuracy) ptr)
  = Done value /\
  outcome_of (exec (Device.register_file (Device.regs_sample b0 b1 b2))
                   (readUncompPressure highest (S polls) accuracy) ptr)
  = Done value.
Proof.
  intros value. subst value.
  pose proof (u8_range b0). pose proof (u8_range b1). pose proof (u8_range b2).
  split; [apply assemble_u32_value |].
  split; [apply assemble_s32_value |].
  split; [change (2 ^ 24) with 16777216; lia |].
  split.
  - rewrite readUncompTemprature_on_sample. f_equal. apply assemble_u32_value.
  - rewrite readUncompPressure_on_sample. f_equal. apply assemble_s32_value.
Qed.

(** C4, counterexample: for the buffer 0x01, 0x02, 0x03 both raw reads
    return 0x030201, not the big-endian 0x010203. *)
Lemma raw_sample_not_big_endian :
  let big_endian := u8 x01 * 65536 + u8 x02 * 256 + u8 x03 in
  outcome_of (exec (Device.register_file (Device.regs_sample x01 x02 x03))
                   (readUncompTemprature 5 ACCURACY_STANDARD) x00)
  = Done 197121 /\
  outcome_of (exec (Device.register_file (Device.regs_sample x01 x02 x03))
                   (readUncompPressure 5 10 ACCURACY_STANDARD) x00)
  = Done 197121 /\
  assemble_u32 x01 x02 x03 <> big_endian /\
  assemble_s32 x01 x02 x03 <> big_endian.
Proof. vm_compute. repeat split; congruence. Qed.

(** ** Humidity *)

(** C9: for every accuracy mode, on every transport and from every
    device state, ReadHumidityMultQ2210 returns supported = false, value
    0 and no error, performs no bus operation and leaves the device as
    it was. *)
Theorem ReadHumidityMultQ2210_unsupported
        (T : Transport) (s : bus T) (accuracy : AccuracyMode) :
  exec T (ReadHumidityMultQ2210 accuracy) s = (Done (false, 0), s, []).
Proof. reflexivity. Qed.

(** ** Bus operations of the accessors *)

Lemma performs_only_WriteRegU8 (P : I2C_op -> Prop) (reg value : byte) :
  P (OpWriteRegU8 reg value) -> performs_only P (WriteRegU8 reg value).
Proof.
  intros H. apply performs_only_Call; [exact H |].
  intros r. apply performs_only_of_result.
Qed.

Lemma performs_only_ReadRegBytes (P : I2C_op -> Prop) (reg : byte) (n : nat) :
  P (OpReadRegBytes reg n) -> performs_only P (ReadRegBytes reg n).
Proof.
  intros H. apply performs_only_Call; [exact H |].
  intros r. apply performs_only_of_result.
Qed.

Lemma performs_only_deref_Coeff (P : I2C_op -> Prop) (v : SensorBME680) :
  performs_only P (deref_Coeff v).
Proof. unfold deref_Coeff. destruct (Coeff v); apply performs_only_Ret. Qed.

Lemma exec_bind_Done {A B} (T : Transport) (m : Prog A) (f : A -> Prog B)
      (s s2 : bus T) (b : B) (tr : list I2C_op) :
  exec T (bind m f) s = (Done b, s2, tr) ->
  exists a s1 tr1 tr2,
    exec T m s = (Done a, s1, tr1) /\
    exec T (f a) s1 = (Done b, s2, tr2) /\
    tr = tr1 ++ tr2.
Proof.
  rewrite exec_bind.
  destruct (exec T m s) as [[r s1] tr1].
  destruct r as [a | e |]; try discriminate.
  destruct (exec T (f a) s1) as [[r2 s3] tr2] eqn:E2.
  intros H. inversion H; subst.
  exists a, s1, tr1, tr2. repeat split. exact E2.
Qed.

Lemma exec_WriteRegU8_Done (T : Transport) (reg value : byte)
      (s s1 : bus T) (u : unit) (tr : list I2C_op) :
  exec T (WriteRegU8 reg value) s = (Done u, s1, tr) ->
  tr = [OpWriteRegU8 reg value].
Proof.
  unfold WriteRegU8. simpl.
  destruct (respond T (OpWriteRegU8 reg value) s) as [resp s'].
  destruct resp as [a | e]; simpl; intros H; inversion H; reflexivity.
Qed.

Lemma getOversamplingRation_values (highest accuracy : AccuracyMode) :
  In (getOversamplingRation highest accuracy) [0; 1; 2; 3; 4; 5].
Proof.
  unfold getOversamplingRation.
  repeat match goal with
         | |- context [if ?c then _ else _] => destruct c
         end; simpl; tauto.
Qed.

Lemma getOversamplingRation_STANDARD (highest : AccuracyMode) :
  getOversamplingRation highest ACCURACY_STANDARD = 2.
Proof. reflexivity. Qed.

Lemma combined_osr_fields (highest accuracy : AccuracyMode) :
  let osrt := getOversamplingRation highest ACCURACY_STANDARD in
  let osrp := getOversamplingRation highest accuracy in
  let value := byte_of_Z (Z.lor (shlu8 osrt 3) osrp) in
  osr_temperature_field value = osrt /\ osr_pressure_field value = osrp.
Proof.
  intros osrt osrp value. subst osrt osrp value.
  rewrite getOversamplingRation_STANDARD.
  pose proof (getOversamplingRation_values highest accuracy) as Hin.
  simpl in Hin.
  destruct Hin as [E | [E | [E | [E | [E | [E | []]]]]]];
    rewrite <- E; vm_compute; split; reflexivity.
Qed.

(** C5: on every transport and from every device state,
    ReadTemperatureMult100C never writes the power-control register and
    never reads the status register, whatever the accuracy mode: the raw
    temperature bytes are read without a conversion having been
    triggered or awaited.  On the fixture device its bus operations are
    exactly: write CONFIG, write OSR, read 3 bytes at 0x22, then the
    calibration reload; it returns 1972. *)
Theorem ReadTemperatureMult100C_reads_without_trigger
        (highest : AccuracyMode) (v : SensorBME680) (accuracy : AccuracyMode) :
  performs_only no_trigger_no_poll (ReadTemperatureMult100C highest v accuracy) /\
  exec (Device.register_file Device.regs_fixture)
       (ReadTemperatureMult100C 5 (mkSensorBME680 None) ACCURACY_STANDARD) x00
  = (Done (1972, mkSensorBME680 (Some Device.coeff_fixture)), x31,
     [OpWriteRegU8 BME680_CONFIG x00; OpWriteRegU8 BME680_OSR_REG x40;
      OpReadRegBytes BME680_TEMP_OUT_MSB_LSB_XLSB 3;
      OpWriteBytes [BME680_COEF_START]; OpReadBytes BME680_COEF_BYTES]).
Proof.
  split; [| vm_compute; reflexivity].
  assert (Hw : forall reg value, reg <> BME680_PWR_CTRL_REG ->
                 no_trigger_no_poll (OpWriteRegU8 reg value)).
  { intros reg value Hreg. split; [intros value' E; inversion E; congruence | discriminate]. }
  unfold ReadTemperatureMult100C, readUncompTemprature.
  apply performs_only_bind.
  - apply performs_only_bind.
    { apply performs_only_WriteRegU8. apply Hw. discriminate. }
    intros _. apply performs_only_bind.
    { apply performs_only_WriteRegU8. apply Hw. discriminate. }
    intros _. apply performs_only_bind.
    { apply performs_only_ReadRegBytes. split; [intros value E |]; discriminate. }
    intros buf.
    repeat (apply performs_only_bind; [apply performs_only_index | intros ?]).
    apply performs_only_Ret.
  - intros ut. apply performs_only_bind.
    { apply performs_only_ReadCoefficients; (split; [intros value E |]; discriminate). }
    intros v'. apply performs_only_bind; [apply performs_only_deref_Coeff |].
    intros c. apply performs_only_Ret.
Qed.

Lemma performs_only_readUncompTempratureAndPressure
      (highest : AccuracyMode) (max_polls : nat) (accuracy : AccuracyMode) :
  performs_only
    (osr_fields (getOversamplingRation highest ACCURACY_STANDARD)
                (getOversamplingRation highest accuracy))
    (readUncompTempratureAndPressure highest max_polls accuracy).
Proof.
  set (P := osr_fields _ _).
  assert (Hother : forall op, (forall value, op <> OpWriteRegU8 BME680_OSR_REG value) -> P op).
  { intros op Hop value E. exfalso. exact (Hop value E). }
  assert (Hwait : performs_only P (waitForCompletion IsBusy max_polls)).
  { apply performs_only_waitForCompletion. apply Hother. discriminate. }
  unfold readUncompTempratureAndPressure.
  apply performs_only_bind.
  { apply performs_only_WriteRegU8. apply Hother. discriminate. }
  intros _. apply performs_only_bind; [exact Hwait |].
  intros _. apply performs_only_bind.
  { apply performs_only_WriteRegU8. intros value E. inversion E; subst value.
    apply combined_osr_fields. }
  intros _. apply performs_only_bind; [exact Hwait |].
  intros _. apply performs_only_bind.
  { apply performs_only_ReadRegBytes. apply Hother. discriminate. }
  intros buf.
  do 3 (apply performs_only_bind; [apply performs_only_index | intros ?]).
  apply performs_only_bind.
  { apply performs_only_ReadRegBytes. apply Hother. discriminate. }
  intros buf'.
  do 3 (apply performs_only_bind; [apply performs_only_index | intros ?]).
  apply performs_only_Ret.
Qed.

Lemma readUncompTempratureAndPressure_writes_osr
      (highest : AccuracyMode) (max_polls : nat) (accuracy : AccuracyMode)
      (T : Transport) (s s1 : bus T) (r : Z * Z) (tr : list I2C_op) :
  exec T (readUncompTempratureAndPressure highest max_polls accuracy) s
  = (Done r, s1, tr) ->
  In (OpWriteRegU8 BME680_OSR_REG
        (byte_of_Z (Z.lor (shlu8 (getOversamplingRation highest ACCURACY_STANDARD) 3)
                          (getOversamplingRation highest accuracy))))
     tr.
Proof.
  unfold readUncompTempratureAndPressure. intros H.
  apply exec_bind_Done in H. destruct H as (u1 & sa & tr1 & tr2 & _ & H & ->).
  apply exec_bind_Done in H. destruct H as (u2 & sb & tr3 & tr4 & _ & H & ->).
  apply exec_bind_Done in H. destruct H as (u3 & sc & tr5 & tr6 & Hw & _ & ->).
  apply exec_WriteRegU8_Done in Hw. subst tr5.
  apply in_or_app. right. apply in_or_app. right. left. reflexivity.
Qed.

(** C10: for every requested accuracy mode, every byte that
    ReadPressureMult10Pa writes to the oversampling register, on any
    transport, carries the code of ACCURACY_STANDARD (2) in its
    temperature field and the code of the requested mode in its pressure
    field; and a pressure read that returns a value has written that
    byte. *)
Theorem pressure_read_programs_standard_temperature_oversampling
        (highest : AccuracyMode) (max_polls : nat) (v : SensorBME680)
        (accuracy : AccuracyMode) :
  getOversamplingRation highest ACCURACY_STANDARD = 2 /\
  performs_only
    (osr_fields 2 (getOversamplingRation highest accuracy))
    (ReadPressureMult10Pa highest max_polls v accuracy) /\
  (forall (T : Transport) (s s1 : bus T) (r : Z * SensorBME680) (tr : list I2C_op),
      exec T (ReadPressureMult10Pa highest max_polls v accuracy) s = (Done r, s1, tr) ->
      exists value,
        In (OpWriteRegU8 BME680_OSR_REG value) tr /\
        osr_temperature_field value = 2 /\
        osr_pressure_field value = getOversamplingRation highest accuracy).
Proof.
  split; [reflexivity |]. split.
  - unfold ReadPressureMult10Pa. apply performs_only_bind.
    { rewrite <- (getOversamplingRation_STANDARD highest).
      apply performs_only_readUncompTempratureAndPressure. }
    intros [ut up]. apply performs_only_bind.
    { apply performs_only_ReadCoefficients; intros value E; discriminate. }
    intros v'. apply performs_only_bind; [apply performs_only_deref_Coeff |].
    intros c. apply performs_only_Ret.
  - intros T s s1 r tr H. unfold ReadPressureMult10Pa in H.
    apply exec_bind_Done in H. destruct H as (utup & sa & tr1 & tr2 & Hraw & _ & ->).
    apply readUncompTempratureAndPressure_writes_osr in Hraw.
    eexists. split; [apply in_or_app; left; exact Hraw |].
    pose proof (combined_osr_fields highest accuracy) as F. cbv zeta in F.
    rewrite getOversamplingRation_STANDARD in F at 2.
    exact F.
Qed.

(** ** Validation of the coefficients *)

Lemma IsValidCoefficients_check_in_order (c : CoeffBME680) :
  IsValidCoefficients (mkSensorBME680 (Some c)) = check_in_order checked_fields c.
Proof. reflexivity. Qed.

Lemma checkCoefficient_sentinel (coef : Z) (name : string) :
  checkCoefficient coef name
  = if is_sentinel coef then Some (ErrCoefficient name coef) else None.
Proof. reflexivity. Qed.

Lemma check_in_order_all_good (fields : list (string * (CoeffBME680 -> Z)))
      (c : CoeffBME680) :
  Forall (not_sentinel_in c) fields -> check_in_order fields c = None.
Proof.
  induction 1 as [| [name get] rest Hf _ IH]; simpl.
  - reflexivity.
  - rewrite checkCoefficient_sentinel. unfold not_sentinel_in in Hf. simpl in Hf.
    rewrite Hf. exact IH.
Qed.

Lemma check_in_order_first_bad (pre post : list (string * (CoeffBME680 -> Z)))
      (name : string) (get : CoeffBME680 -> Z) (c : CoeffBME680) :
  Forall (not_sentinel_in c) pre ->
  is_sentinel (get c) = true ->
  check_in_order (pre ++ (name, get) :: post) c
  = Some (ErrCoefficient name (get c)).
Proof.
  intros Hpre Hbad. induction Hpre as [| [n g] rest Hf _ IH]; simpl.
  - rewrite checkCoefficient_sentinel, Hbad. reflexivity.
  - rewrite checkCoefficient_sentinel. unfold not_sentinel_in in Hf. simpl in Hf.
    rewrite Hf. exact IH.
Qed.

(** C6, as the code has it: for every loaded coefficient set, if none
    of the thirteen coefficients IsValidCoefficients checks (PAR_T1,
    PAR_T2, PAR_T3, PAR_P1, PAR_P2, PAR_P3, PAR_P5 .. PAR_P11) equals a
    sentinel (0x0000 or 0xFFFF once widened to 16 bits)
    IsValidCoefficients succeeds, whatever PAR_P4 holds; and if one of
    the thirteen equals a sentinel while the ones checked before it do
    not, it fails with the error naming that field. *)
Theorem IsValidCoefficients_names_first_sentinel (c : CoeffBME680) :
  (Forall (not_sentinel_in c) checked_fields ->
   IsValidCoefficients (mkSensorBME680 (Some c)) = None) /\
  (forall pre post name get,
      checked_fields = pre ++ (name, get) :: post ->
      Forall (not_sentinel_in c) pre ->
      is_sentinel (get c) = true ->
      IsValidCoefficients (mkSensorBME680 (Some c))
      = Some (ErrCoefficient name (get c))).
Proof.
  split.
  - intros Hall. rewrite IsValidCoefficients_check_in_order.
    now apply check_in_order_all_good.
  - intros pre post name get Hsplit Hpre Hbad.
    rewrite IsValidCoefficients_check_in_order, Hsplit.
    now apply check_in_order_first_bad.
Qed.

Lemma IsValidCoefficients_names_first_sentinel_witness :
  IsValidCoefficients (mkSensorBME680 (Some coeff_ones)) = None /\
  IsValidCoefficients (mkSensorBME680 (Some coeff_P1_erased))
  = Some (ErrCoefficient "PAR_P1" 0).
Proof.
  split.
  - apply (proj1 (IsValidCoefficients_names_first_sentinel coeff_ones)).
    repeat constructor.
  - apply (proj2 (IsValidCoefficients_names_first_sentinel coeff_P1_erased)
                 (firstn 3 checked_fields) (skipn 4 checked_fields)
                 "PAR_P1"%string (fun c => uint16 (PAR_P1 c))).
    + reflexivity.
    + repeat constructor.
    + reflexivity.
Defined.

(** C6, counterexample: PAR_P4 enters the pressure formula as PAR_P8
    does, but its check is commented out.  With register 0x3B erased to
    0x00 (or 0xFF) and every other coefficient valid, PAR_P4 holds a
    sentinel and IsValidCoefficients succeeds, where the same erasure of
    PAR_P8 fails naming PAR_P8; and the value of PAR_P4 does change the
    compensated pressure. *)
Lemma IsValidCoefficients_accepts_erased_PAR_P4 :
  is_sentinel (uint16 (PAR_P4 (coeff_P4_P8 x00 x01))) = true /\
  is_sentinel (uint16 (PAR_P4 (coeff_P4_P8 xff x01))) = true /\
  IsValidCoefficients (mkSensorBME680 (Some (coeff_P4_P8 x00 x01))) = None /\
  IsValidCoefficients (mkSensorBME680 (Some (coeff_P4_P8 xff x01))) = None /\
  IsValidCoefficients (mkSensorBME680 (Some (coeff_P4_P8 x01 x00)))
  = Some (ErrCoefficient "PAR_P8" 0) /\
  Pressure.comp_press 8178833 6000000 (coeff_P4_P8 x00 x01) = 7411725 /\
  Pressure.comp_press 8178833 6000000 (coeff_P4_P8 x01 x01) = 7411759 /\
  Pressure.comp_press 8178833 6000000 (coeff_P4_P8 xff x01) = 7411692.
Proof. vm_compute. repeat split; reflexivity. Qed.

Lemma pressure_read_programs_standard_temperature_oversampling_witness :
  exists r s1 tr,
    exec (Device.register_file (Device.regs_sample x10 x20 x30))
         (ReadPressureMult10Pa 5 10 (mkSensorBME680 None) ACCURACY_HIGH) x00
    = (Done r, s1, tr) /\
    exists value,
      In (OpWriteRegU8 BME680_OSR_REG value) tr /\
      osr_temperature_field value = 2 /\
      osr_pressure_field value = getOversamplingRation 5 ACCURACY_HIGH.
Proof.
  eexists. eexists. eexists. split.
  - vm_compute. reflexivity.
  - eapply (proj2 (proj2 (pressure_read_programs_standard_temperature_oversampling
                            5 10 (mkSensorBME680 None) ACCURACY_HIGH))
                  (Device.register_file (Device.regs_sample x10 x20 x30)) x00).
    vm_compute. reflexivity.
Defined.

(** ** Driver construction *)

Lemma Byte_eqb_neq (a b : byte) : a <> b -> Byte.eqb a b = false.
Proof.
  intros H. destruct (Byte.eqb a b) eqn:E; [| reflexivity].
  exfalso. apply H. now apply Byte.byte_dec_bl.
Qed.

Lemma Byte_eqb_refl (a : byte) : Byte.eqb a a = true.
Proof. now apply Byte.byte_dec_lb. Qed.

(** C8: for a supported sensor type, on every transport whose identity
    register answers a byte that differs from the signature of the
    constructed sensor, NewBMP fails with the sensor-id error, returns
    no driver, and the identity read is the only bus operation: no
    calibration read is performed. *)
Theorem NewBMP_signature_mismatch
        (BMP180 BMP280 sns : Bmp.Sensor) (sensorType : Bmp.SensorType)
        (T : Transport) (s s1 : bus T) (i : byte) :
  constructed BMP180 BMP280 sensorType sns ->
  respond T (OpReadRegU8 Bmp.ID_REG) s = (Ok i, s1) ->
  i <> Bmp.GetSensorSignature (Bmp.impl sns) (Bmp.receiver sns) ->
  exec T (Bmp.NewBMP BMP180 BMP280 sensorType) s
  = (Fail (ErrSensorId (Bmp.GetSensorSignature (Bmp.impl sns) (Bmp.receiver sns)) i),
     s1, [OpReadRegU8 Bmp.ID_REG]).
Proof.
  intros Hsel Hid Hneq.
  unfold Bmp.NewBMP, Bmp.readSensorID, ReadRegU8.
  destruct Hsel as [[-> ->] | [-> ->]]; simpl; rewrite Hid; simpl;
    rewrite (Byte_eqb_neq _ _ Hneq); reflexivity.
Qed.

Lemma NewBMP_signature_mismatch_witness :
  exec (Device.register_file (Device.regs_erased x55))
       (Bmp.NewBMP (Device.bme680_sensor 5 10) (Device.bme680_sensor 5 10)
                   Bmp.BMP180_TYPE) x00
  = (Fail (ErrSensorId x25 x55), x00, [OpReadRegU8 Bmp.ID_REG]).
Proof.
  apply (NewBMP_signature_mismatch
           (Device.bme680_sensor 5 10) (Device.bme680_sensor 5 10)
           (Device.bme680_sensor 5 10) Bmp.BMP180_TYPE
           (Device.register_file (Device.regs_erased x55)) x00 x00 x55).
  - left. split; reflexivity.
  - reflexivity.
  - discriminate.
Defined.

Lemma NewBMP_run_on_matching_signature
      (BMP180 BMP280 sns : Bmp.Sensor) (sensorType : Bmp.SensorType)
      (T : Transport) (s s1 s2 : bus T)
      (r : Bmp.self (Bmp.impl sns)) (tr : list I2C_op) :
  constructed BMP180 BMP280 sensorType sns ->
  respond T (OpReadRegU8 Bmp.ID_REG) s
  = (Ok (Bmp.GetSensorSignature (Bmp.impl sns) (Bmp.receiver sns)), s1) ->
  exec T (Bmp.ReadCoefficients (Bmp.impl sns) (Bmp.receiver sns)) s1
  = (Done r, s2, tr) ->
  exec T (Bmp.NewBMP BMP180 BMP280 sensorType) s
  = (Done (Bmp.mkBMP sensorType (Some (Bmp.mkSensor (Bmp.impl sns) r))
                     (Bmp.GetSensorSignature (Bmp.impl sns) (Bmp.receiver sns))),
     s2, OpReadRegU8 Bmp.ID_REG :: tr).
Proof.
  intros Hsel Hid Hload.
  unfold Bmp.NewBMP, Bmp.readSensorID, ReadRegU8.
  destruct Hsel as [[-> ->] | [-> ->]]; simpl; rewrite Hid; simpl;
    rewrite Byte_eqb_refl; simpl; rewrite exec_bind, Hload; simpl;
    rewrite app_nil_r; reflexivity.
Qed.

Lemma erased_device_loads (ptr : byte) :
  exec (Device.register_file (Device.regs_erased x25))
       (Bmp.ReadCoefficients (Bmp.impl (Device.bme680_sensor 5 10))
                             (Bmp.receiver (Device.bme680_sensor 5 10))) ptr
  = (Done (mkSensorBME680 (Some coeff_erased)), x31,
     [OpWriteBytes [BME680_COEF_START]; OpReadBytes BME680_COEF_BYTES]).
Proof. vm_compute. reflexivity. Qed.

(** C7, as the code has it: construction performs the identity check
    and the calibration load, and no validation.  For a supported sensor
    type, whenever the identity byte equals the sensor's signature and
    ReadCoefficients succeeds, NewBMP returns a driver holding the
    loaded sensor, also when that sensor's IsValidCoefficients rejects
    the coefficients; the verdict is what BMP.IsValidCoefficients
    reports on the returned driver when the caller asks for it. *)
Theorem NewBMP_loads_without_validating
        (BMP180 BMP280 sns : Bmp.Sensor) (sensorType : Bmp.SensorType)
        (T : Transport) (s s1 s2 : bus T)
        (r : Bmp.self (Bmp.impl sns)) (tr : list I2C_op) :
  constructed BMP180 BMP280 sensorType sns ->
  respond T (OpReadRegU8 Bmp.ID_REG) s
  = (Ok (Bmp.GetSensorSignature (Bmp.impl sns) (Bmp.receiver sns)), s1) ->
  exec T (Bmp.ReadCoefficients (Bmp.impl sns) (Bmp.receiver sns)) s1
  = (Done r, s2, tr) ->
  let drv := Bmp.mkBMP sensorType (Some (Bmp.mkSensor (Bmp.impl sns) r))
               (Bmp.GetSensorSignature (Bmp.impl sns) (Bmp.receiver sns)) in
  exec T (Bmp.NewBMP BMP180 BMP280 sensorType) s
  = (Done drv, s2, OpReadRegU8 Bmp.ID_REG :: tr) /\
  Bmp.BMP_IsValidCoefficients drv
  = match Bmp.IsValidCoefficients (Bmp.impl sns) r with
    | Some e => Fail e
    | None => Done tt
    end.
Proof.
  intros Hsel Hid Hload drv. split; [| reflexivity].
  subst drv. now apply NewBMP_run_on_matching_signature with (s1 := s1).
Qed.

Lemma NewBMP_loads_without_validating_witness :
  let loaded := mkSensorBME680 (Some coeff_erased) in
  let drv := Bmp.mkBMP Bmp.BMP280_TYPE
               (Some (Bmp.mkSensor (Device.bme680_interface 5 10) loaded)) x25 in
  exec (Device.register_file (Device.regs_erased x25))
       (Bmp.NewBMP (Device.bme680_sensor 5 10) (Device.bme680_sensor 5 10)
                   Bmp.BMP280_TYPE) x00
  = (Done drv, x31,
     [OpReadRegU8 Bmp.ID_REG; OpWriteBytes [BME680_COEF_START];
      OpReadBytes BME680_COEF_BYTES]) /\
  Bmp.BMP_IsValidCoefficients drv = Fail (ErrCoefficient "PAR_T1" 0).
Proof.
  intros loaded drv.
  assert (Hsel : constructed (Device.bme680_sensor 5 10) (Device.bme680_sensor 5 10)
                             Bmp.BMP280_TYPE (Device.bme680_sensor 5 10))
    by (right; split; reflexivity).
  assert (Hid :
            respond (Device.register_file (Device.regs_erased x25))
                    (OpReadRegU8 Bmp.ID_REG) x00
            = (Ok (Bmp.GetSensorSignature (Bmp.impl (Device.bme680_sensor 5 10))
                                          (Bmp.receiver (Device.bme680_sensor 5 10))),
               x00))
    by reflexivity.
  pose proof (erased_device_loads x00) as Hload.
  destruct (NewBMP_loads_without_validating
              (Device.bme680_sensor 5 10) (Device.bme680_sensor 5 10)
              (Device.bme680_sensor 5 10) Bmp.BMP280_TYPE
              (Device.register_file (Device.regs_erased x25)) x00 x00 x31
              loaded _ Hsel Hid Hload) as [Hnew Hvalid].
  split.
  - exact Hnew.
  - clear Hnew Hvalid Hload. vm_compute. reflexivity.
Defined.

(** C7, counterexample: the identity register holds the signature and
    the calibration block is erased (every coefficient 0x0000);
    NewBMP returns a driver, and validating that driver fails on the
    first coefficient. *)
Lemma NewBMP_accepts_erased_calibration :
  let drv := Bmp.mkBMP Bmp.BMP180_TYPE
               (Some (Bmp.mkSensor (Device.bme680_interface 5 10)
                                   (mkSensorBME680 (Some coeff_erased)))) x25 in
  outcome_of
    (exec (Device.register_file (Device.regs_erased x25))
          (Bmp.NewBMP (Device.bme680_sensor 5 10) (Device.bme680_sensor 5 10)
                      Bmp.BMP180_TYPE) x00)
  = Done drv /\
  Bmp.BMP_IsValidCoefficients drv = Fail (ErrCoefficient "PAR_T1" 0).
Proof.
  intros drv. split.
  - unfold outcome_of.
    rewrite (NewBMP_run_on_matching_signature
               (Device.bme680_sensor 5 10) (Device.bme680_sensor 5 10)
               (Device.bme680_sensor 5 10) Bmp.BMP180_TYPE
               (Device.register_file (Device.regs_erased x25)) x00 x00 x31
               (mkSensorBME680 (Some coeff_erased))
               [OpWriteBytes [BME680_COEF_START]; OpReadBytes BME680_COEF_BYTES]).
    + reflexivity.
    + left. split; reflexivity.
    + reflexivity.
    + apply erased_device_loads.
  - subst drv. vm_compute. reflexivity.
Qed.

(** * Further properties of the code *)

(** ** Decoding of the calibration registers *)

Lemma u8_inj (a b : byte) : u8 a = u8 b -> a = b.
Proof.
  unfold u8. intros H. apply N2Z.inj in H.
  pose proof (Byte.of_to_N a) as Ha. pose proof (Byte.of_to_N b) as Hb.
  rewrite H in Ha. congruence.
Qed.

Lemma uint16_hi_lo (hi lo : byte) : uint16 (hi_lo hi lo) = hi_lo hi lo.
Proof.
  apply to_unsigned_small; [lia |].
  change (2 ^ 16) with 65536. apply hi_lo_range.
Qed.

Lemma int16_hi_lo (hi lo : byte) :
  int16 (hi_lo hi lo) = twos_complement 16 (low_high lo hi).
Proof.
  pose proof (hi_lo_range hi lo) as R. rewrite hi_lo_value in *.
  unfold low_high, twos_complement, int16, to_signed.
  change (2 ^ (16 - 1)) with 32768. change (2 ^ 16) with 65536.
  replace (u8 lo + 256 * u8 hi) with (u8 hi * 256 + u8 lo) by lia.
  destruct (Z.ltb_spec (u8 hi * 256 + u8 lo) 32768) as [Hlt | Hge].
  - rewrite Z.mod_small; lia.
  - replace (u8 hi * 256 + u8 lo + 32768)
      with ((u8 hi * 256 + u8 lo - 32768) + 1 * 65536) by lia.
    rewrite Z.mod_add by lia. rewrite Z.mod_small; lia.
Qed.

Lemma int8_u8 (b : byte) : int8 (u8 b) = twos_complement 8 (u8 b).
Proof. destruct b; vm_compute; reflexivity. Qed.

Lemma int8_uint16_u8 (b : byte) : int8 (uint16 (u8 b)) = twos_complement 8 (u8 b).
Proof. destruct b; vm_compute; reflexivity. Qed.

(** X1: the unsigned 16-bit coefficients PAR_T1, PAR_T2, PAR_P5 and
    PAR_P6 are their two registers read low byte first, and lie in
    0..65535. *)
Theorem unsigned_coefficients_low_byte_first (c : CoeffBME680) :
  PAR_T1 c = low_high (COEF_31 c) (COEF_32 c) /\
  PAR_T2 c = low_high (COEF_33 c) (COEF_34 c) /\
  PAR_P5 c = low_high (COEF_3C c) (COEF_3D c) /\
  PAR_P6 c = low_high (COEF_3E c) (COEF_3F c) /\
  0 <= PAR_T1 c < 65536 /\ 0 <= PAR_T2 c < 65536 /\
  0 <= PAR_P5 c < 65536 /\ 0 <= PAR_P6 c < 65536.
Proof.
  unfold PAR_T1, PAR_T2, PAR_P5, PAR_P6. rewrite !uint16_hi_lo.
  unfold low_high.
  repeat split; try (rewrite hi_lo_value; lia); try apply hi_lo_range.
Qed.

(** X2: the signed 16-bit coefficients PAR_P1, PAR_P2 and PAR_P9 are
    their two registers read low byte first in two's complement, and
    lie in -32768..32767. *)
Theorem signed_coefficients_twos_complement (c : CoeffBME680) :
  PAR_P1 c = twos_complement 16 (low_high (COEF_36 c) (COEF_37 c)) /\
  PAR_P2 c = twos_complement 16 (low_high (COEF_38 c) (COEF_39 c)) /\
  PAR_P9 c = twos_complement 16 (low_high (COEF_42 c) (COEF_43 c)) /\
  -32768 <= PAR_P1 c < 32768 /\ -32768 <= PAR_P2 c < 32768 /\
  -32768 <= PAR_P9 c < 32768.
Proof.
  assert (R : forall lo hi, -32768 <= twos_complement 16 (low_high lo hi) < 32768).
  { intros lo hi. pose proof (u8_range lo). pose proof (u8_range hi).
    unfold twos_complement, low_high.
    change (2 ^ (16 - 1)) with 32768. change (2 ^ 16) with 65536.
    destruct (Z.ltb_spec (u8 lo + 256 * u8 hi) 32768); lia. }
  unfold PAR_P1, PAR_P2, PAR_P9. rewrite !int16_hi_lo.
  repeat split; apply R.
Qed.

(** X3: the 8-bit coefficients PAR_T3, PAR_P3, PAR_P4, PAR_P7, PAR_P8,
    PAR_P10 and PAR_P11 are their register byte read in two's
    complement, and lie in -128..127. *)
Theorem byte_coefficients_twos_complement (c : CoeffBME680) :
  PAR_T3 c = twos_complement 8 (u8 (COEF_35 c)) /\
  PAR_P3 c = twos_complement 8 (u8 (COEF_3A c)) /\
  PAR_P4 c = twos_complement 8 (u8 (COEF_3B c)) /\
  PAR_P7 c = twos_complement 8 (u8 (COEF_40 c)) /\
  PAR_P8 c = twos_complement 8 (u8 (COEF_41 c)) /\
  PAR_P10 c = twos_complement 8 (u8 (COEF_44 c)) /\
  PAR_P11 c = twos_complement 8 (u8 (COEF_45 c)) /\
  Forall (fun p => -128 <= p < 128)
         [PAR_T3 c; PAR_P3 c; PAR_P4 c; PAR_P7 c; PAR_P8 c; PAR_P10 c; PAR_P11 c].
Proof.
  assert (R : forall b, -128 <= twos_complement 8 (u8 b) < 128).
  { intros b. destruct b; vm_compute; split; congruence. }
  unfold PAR_T3, PAR_P3, PAR_P4, PAR_P7, PAR_P8, PAR_P10, PAR_P11.
  rewrite int8_u8, !int8_uint16_u8.
  repeat split; try reflexivity.
  repeat constructor; apply R.
Qed.

(** ** Validation, continued *)

Lemma check_in_order_None (fields : list (string * (CoeffBME680 -> Z)))
      (c : CoeffBME680) :
  check_in_order fields c = None -> Forall (not_sentinel_in c) fields.
Proof.
  induction fields as [| [name get] rest IH]; simpl; intros H.
  - constructor.
  - rewrite checkCoefficient_sentinel in H.
    destruct (is_sentinel (get c)) eqn:E; simpl in H; [discriminate |].
    constructor; [exact E | now apply IH].
Qed.

Lemma check_in_order_Some (fields : list (string * (CoeffBME680 -> Z)))
      (c : CoeffBME680) (e : error) :
  check_in_order fields c = Some e ->
  exists name get,
    In (name, get) fields /\ is_sentinel (get c) = true /\
    e = ErrCoefficient name (get c).
Proof.
  induction fields as [| [name get] rest IH]; simpl; intros H.
  - discriminate.
  - rewrite checkCoefficient_sentinel in H.
    destruct (is_sentinel (get c)) eqn:E; simpl in H.
    + inversion H. exists name, get. repeat split; auto.
    + destruct (IH H) as (n & g & Hin & Hs & He).
      exists n, g. repeat split; auto.
Qed.

(** X4: IsValidCoefficients succeeds only when none of the checked
    coefficients is a sentinel, and every error it returns for a loaded
    set names one of the checked coefficients, which does hold a
    sentinel value. *)
Theorem IsValidCoefficients_sound (c : CoeffBME680) :
  (IsValidCoefficients (mkSensorBME680 (Some c)) = None ->
   Forall (not_sentinel_in c) checked_fields) /\
  (forall e,
      IsValidCoefficients (mkSensorBME680 (Some c)) = Some e ->
      exists name get,
        In (name, get) checked_fields /\ is_sentinel (get c) = true /\
        e = ErrCoefficient name (get c)).
Proof.
  rewrite IsValidCoefficients_check_in_order. split.
  - apply check_in_order_None.
  - intros e. apply check_in_order_Some.
Qed.

Lemma IsValidCoefficients_sound_witness :
  Forall (not_sentinel_in coeff_ones) checked_fields /\
  exists name get,
    In (name, get) checked_fields /\ is_sentinel (get coeff_P1_erased) = true /\
    ErrCoefficient "PAR_P1" 0 = ErrCoefficient name (get coeff_P1_erased).
Proof.
  split.
  - apply (proj1 (IsValidCoefficients_sound coeff_ones)). reflexivity.
  - apply (proj2 (IsValidCoefficients_sound coeff_P1_erased)). reflexivity.
Defined.

(** X5: the verdict of IsValidCoefficients does not depend on register
    0x3B: whatever PAR_P4 holds, erased or not, the result is the same. *)
Theorem IsValidCoefficients_ignores_PAR_P4 (c : CoeffBME680) (b : byte) :
  IsValidCoefficients (mkSensorBME680 (Some (with_COEF_3B c b)))
  = IsValidCoefficients (mkSensorBME680 (Some c)) /\
  PAR_P4 (with_COEF_3B c b) = twos_complement 8 (u8 b).
Proof.
  split.
  - destruct c. reflexivity.
  - unfold PAR_P4. simpl. apply int8_uint16_u8.
Qed.

Lemma uint16_int16 (z : Z) : uint16 (int16 z) = uint16 z.
Proof.
  unfold uint16, int16, to_unsigned, to_signed.
  change (2 ^ (16 - 1)) with 32768. change (2 ^ 16) with 65536.
  rewrite Zminus_mod_idemp_l.
  f_equal. lia.
Qed.

Lemma sentinel_pair (hi lo : byte) :
  is_sentinel (hi_lo hi lo) = true <-> erased_pair lo hi.
Proof.
  pose proof (u8_range hi) as Hh. pose proof (u8_range lo) as Hl.
  unfold is_sentinel, erased_pair.
  rewrite orb_true_iff, !Z.eqb_eq, hi_lo_value. split.
  - intros [H | H].
    + left. split; apply u8_inj; change (u8 x00) with 0; lia.
    + right. split; apply u8_inj; change (u8 xff) with 255; lia.
  - intros [[-> ->] | [-> ->]]; [left | right]; reflexivity.
Qed.

Lemma sentinel_byte (b : byte) :
  is_sentinel (uint16 (twos_complement 8 (u8 b))) = true <-> erased_byte b.
Proof.
  unfold erased_byte.
  destruct b; vm_compute;
    (split;
     [ intros H; first [discriminate H | left; reflexivity | right; reflexivity]
     | intros [H | H]; first [reflexivity | discriminate H] ]).
Qed.

(** X6: which register contents IsValidCoefficients treats as a
    sentinel.  A 16-bit coefficient, signed or unsigned, is a sentinel
    exactly when both of its registers are 0x00 or both are 0xFF; an
    8-bit coefficient exactly when its register is 0x00 or 0xFF. *)
Theorem sentinel_register_contents (c : CoeffBME680) :
  (is_sentinel (uint16 (PAR_T1 c)) = true <-> erased_pair (COEF_31 c) (COEF_32 c)) /\
  (is_sentinel (uint16 (PAR_T2 c)) = true <-> erased_pair (COEF_33 c) (COEF_34 c)) /\
  (is_sentinel (uint16 (PAR_P1 c)) = true <-> erased_pair (COEF_36 c) (COEF_37 c)) /\
  (is_sentinel (uint16 (PAR_P2 c)) = true <-> erased_pair (COEF_38 c) (COEF_39 c)) /\
  (is_sentinel (uint16 (PAR_P5 c)) = true <-> erased_pair (COEF_3C c) (COEF_3D c)) /\
  (is_sentinel (uint16 (PAR_P6 c)) = true <-> erased_pair (COEF_3E c) (COEF_3F c)) /\
  (is_sentinel (uint16 (PAR_P9 c)) = true <-> erased_pair (COEF_42 c) (COEF_43 c)) /\
  (is_sentinel (uint16 (PAR_T3 c)) = true <-> erased_byte (COEF_35 c)) /\
  (is_sentinel (uint16 (PAR_P3 c)) = true <-> erased_byte (COEF_3A c)) /\
  (is_sentinel (uint16 (PAR_P7 c)) = true <-> erased_byte (COEF_40 c)) /\
  (is_sentinel (uint16 (PAR_P8 c)) = true <-> erased_byte (COEF_41 c)) /\
  (is_sentinel (uint16 (PAR_P10 c)) = true <-> erased_byte (COEF_44 c)) /\
  (is_sentinel (uint16 (PAR_P11 c)) = true <-> erased_byte (COEF_45 c)).
Proof.
  unfold PAR_T1, PAR_T2, PAR_P1, PAR_P2, PAR_P5, PAR_P6, PAR_P9,
    PAR_T3, PAR_P3, PAR_P7, PAR_P8, PAR_P10, PAR_P11.
  rewrite !uint16_int16, !uint16_hi_lo, int8_u8, !int8_uint16_u8.
  repeat split; try apply sentinel_pair; try apply sentinel_byte;
    try (intros H; apply sentinel_pair; exact H);
    try (intros H; apply sentinel_byte; exact H).
Qed.

(** ** The busy test, on any transport *)

Lemma tracked_bits (b : byte) :
  (Z.land (u8 b) 0x60 =? 0)
  = negb (Z.testbit (u8 b) 5 || Z.testbit (u8 b) 6).
Proof. destruct b; vm_compute; reflexivity. Qed.

(** X7: on every transport IsBusy performs exactly one bus operation,
    the read of the status register; a read error is returned as it is;
    otherwise the result is true exactly when bits 5 and 6 of the status
    byte are both clear, whatever the other six bits hold. *)
Theorem IsBusy_on_any_transport (T : Transport) (s : bus T) :
  exec T IsBusy s
  = (match fst (respond T (OpReadRegU8 BME680_STATUS_REG) s) with
     | Ok b => Done (negb (Z.testbit (u8 b) 5 || Z.testbit (u8 b) 6))
     | Error e => Fail e
     end,
     snd (respond T (OpReadRegU8 BME680_STATUS_REG) s),
     [OpReadRegU8 BME680_STATUS_REG]).
Proof.
  unfold IsBusy, ReadRegU8. cbn [exec bind].
  destruct (respond T (OpReadRegU8 BME680_STATUS_REG) s) as [[b | e] s1];
    cbn [exec bind of_result ret fail fst snd].
  - rewrite <- tracked_bits. reflexivity.
  - reflexivity.
Qed.

(** ** The temperature formula on 24-bit samples *)

Lemma int32_small (z : Z) : -2147483648 <= z < 2147483648 -> int32 z = z.
Proof.
  intros H. apply to_signed_small; [lia |].
  change (2 ^ (32 - 1)) with 2147483648. lia.
Qed.

Lemma int64_small (z : Z) :
  -9223372036854775808 <= z < 9223372036854775808 -> int64 z = z.
Proof.
  intros H. apply to_signed_small; [lia |].
  change (2 ^ (64 - 1)) with 9223372036854775808. lia.
Qed.

Lemma int64_of_mod (z : Z) : int64 (z mod 2 ^ 64) = int64 z.
Proof.
  unfold int64, to_signed. rewrite Zplus_mod_idemp_l. reflexivity.
Qed.

Lemma quot_bound (a b B : Z) :
  0 < b -> - B * b <= a <= B * b -> - B <= Z.quot a b <= B.
Proof.
  intros Hb [Hlo Hhi]. split.
  - rewrite <- (Z.quot_mul (- B) b) by lia. apply Z.quot_le_mono; lia.
  - rewrite <- (Z.quot_mul B b) by lia. apply Z.quot_le_mono; lia.
Qed.

Lemma PAR_T3_range (c : CoeffBME680) : -128 <= PAR_T3 c < 128.
Proof. unfold PAR_T3. destruct (COEF_35 c); vm_compute; split; congruence. Qed.

Lemma temperature_steps (ut : Z) (c : CoeffBME680) :
  0 <= ut < 2 ^ 24 ->
  let d := ut - 256 * PAR_T1 c in
  Temperature.partial_data1 ut c = d mod 2 ^ 64 /\
  Temperature.partial_data2 ut c = (PAR_T2 c * d) mod 2 ^ 64 /\
  Temperature.partial_data3 ut c = d * d /\
  Temperature.partial_data4 ut c = d * d * PAR_T3 c /\
  Temperature.partial_data5 ut c = exact_partial_data5 ut c /\
  - 2 ^ 59 < exact_partial_data5 ut c < 2 ^ 59.
Proof.
  change (2 ^ 24) with 16777216. change (2 ^ 59) with 576460752303423488.
  intros Hut.
  assert (HT1 : 0 <= PAR_T1 c < 65536) by (unfold PAR_T1; apply hi_lo_range).
  assert (HT2 : 0 <= PAR_T2 c < 65536)
    by (unfold PAR_T2; rewrite uint16_hi_lo; apply hi_lo_range).
  pose proof (PAR_T3_range c) as HT3.
  unfold exact_partial_data5. cbv zeta.
  set (T1 := PAR_T1 c) in *. set (T2 := PAR_T2 c) in *. set (T3 := PAR_T3 c) in *.
  set (d := ut - 256 * T1).
  assert (Hd : -16777216 < d < 16777216) by (subst d; lia).
  assert (Hp : -1099511627776 < T2 * d < 1099511627776) by nia.
  assert (Hq : 0 <= d * d < 281474976710656) by nia.
  assert (Hr : -36028797018963968 <= d * d * T3 <= 36028797018963968) by nia.
  assert (E1 : Temperature.partial_data1 ut c = d mod 2 ^ 64).
  { unfold Temperature.partial_data1, sub32, mul32. fold T1.
    rewrite (int32_small T1) by lia.
    rewrite !(int32_small (256 * T1)) by lia.
    rewrite (int32_small (ut - 256 * T1)) by lia. reflexivity. }
  assert (E3 : Temperature.partial_data3 ut c = d * d).
  { unfold Temperature.partial_data3, mulu64, uint64, to_unsigned.
    rewrite E1, <- Zmult_mod. apply Z.mod_small.
    change (2 ^ 64) with 18446744073709551616. lia. }
  assert (E4 : Temperature.partial_data4 ut c = d * d * T3).
  { unfold Temperature.partial_data4, mul64. fold T3.
    rewrite E3, (int64_small (d * d)) by lia.
    rewrite (int64_small T3) by lia. apply int64_small. lia. }
  assert (E2 : Temperature.partial_data2 ut c = (T2 * d) mod 2 ^ 64).
  { unfold Temperature.partial_data2, mulu64, uint64, to_unsigned. fold T2.
    rewrite E1.
    rewrite (Z.mod_small T2) by (change (2 ^ 64) with 18446744073709551616; lia).
    apply Zmult_mod_idemp_r. }
  repeat split; try assumption; try lia.
  unfold Temperature.partial_data5, add64, mulu64, uint64, to_unsigned.
  rewrite E2, E4, Zmult_mod_idemp_l, int64_of_mod.
  rewrite (int64_small (T2 * d * 262144)) by lia.
  apply int64_small. lia.
Qed.

Lemma partial_data5_exact (ut : Z) (c : CoeffBME680) :
  0 <= ut < 2 ^ 24 ->
  Temperature.partial_data5 ut c = exact_partial_data5 ut c /\
  - 2 ^ 59 < exact_partial_data5 ut c < 2 ^ 59.
Proof.
  intros Hut.
  destruct (temperature_steps ut c Hut) as (_ & _ & _ & _ & E5 & Hb).
  split; assumption.
Qed.

Lemma temperature_exact (ut : Z) (c : CoeffBME680) :
  0 <= ut < 2 ^ 24 ->
  Temperature.partial_data5 ut c = exact_partial_data5 ut c /\
  Temperature.partial_data6 ut c
  = Z.quot (exact_partial_data5 ut c) 4294967269 /\
  Temperature.t ut c
  = Z.quot (Z.quot (exact_partial_data5 ut c) 4294967269 * 25) 16384 /\
  -204801 <= Temperature.t ut c <= 204801.
Proof.
  intros Hut. destruct (partial_data5_exact ut c Hut) as [E5 Hb].
  change (2 ^ 59) with 576460752303423488 in Hb.
  set (e := exact_partial_data5 ut c) in *.
  assert (Hq : -134217729 <= Z.quot e 4294967269 <= 134217729)
    by (apply (quot_bound e 4294967269 134217729); lia).
  assert (E6 : Temperature.partial_data6 ut c = Z.quot e 4294967269).
  { unfold Temperature.partial_data6, div64. rewrite E5.
    apply int64_small. lia. }
  assert (Ht : -204801 <= Z.quot (Z.quot e 4294967269 * 25) 16384 <= 204801)
    by (apply (quot_bound (Z.quot e 4294967269 * 25) 16384 204801); lia).
  assert (E7 : Temperature.t ut c = Z.quot (Z.quot e 4294967269 * 25) 16384).
  { unfold Temperature.t, div64, mul64. rewrite E6.
    rewrite (int64_small (_ * 25)) by lia.
    rewrite (int64_small (Z.quot _ 16384)) by lia.
    apply int32_small. lia. }
  repeat split; try assumption; rewrite E7; lia.
Qed.

(** X8: for a raw sample of 24 bits, 0 <= ut < 2^24, and any
    coefficients, with d = ut - 256*PAR_T1: the unsigned steps
    partial_data1 and partial_data2 hold d and PAR_T2*d reduced modulo
    2^64 (they wrap around when ut < 256*PAR_T1); the later steps hold
    the values computed in unbounded integers all the same:
    partial_data3 = d*d, partial_data4 = d*d*PAR_T3, partial_data5 =
    PAR_T2*d*2^18 + d*d*PAR_T3, partial_data6 is that value divided by
    4294967269 truncating toward zero, and the returned temperature is
    partial_data6*25 divided by 16384, within -204801..204801. *)
Theorem temperature_formula_on_24_bit_samples (ut : Z) (c : CoeffBME680) :
  0 <= ut < 2 ^ 24 ->
  let d := ut - 256 * PAR_T1 c in
  Temperature.partial_data1 ut c = d mod 2 ^ 64 /\
  Temperature.partial_data2 ut c = (PAR_T2 c * d) mod 2 ^ 64 /\
  Temperature.partial_data3 ut c = d * d /\
  Temperature.partial_data4 ut c = d * d * PAR_T3 c /\
  Temperature.partial_data5 ut c = PAR_T2 c * d * 262144 + d * d * PAR_T3 c /\
  Temperature.partial_data6 ut c
  = Z.quot (exact_partial_data5 ut c) 4294967269 /\
  Temperature.t ut c
  = Z.quot (Z.quot (exact_partial_data5 ut c) 4294967269 * 25) 16384 /\
  -204801 <= Temperature.t ut c <= 204801.
Proof.
  intros Hut d.
  destruct (temperature_steps ut c Hut) as (E1 & E2 & E3 & E4 & E5 & _).
  destruct (temperature_exact ut c Hut) as (_ & E6 & E7 & Hb).
  repeat split; try assumption; lia.
Qed.

Lemma temperature_formula_on_24_bit_samples_witness :
  let d := 7000000 - 256 * PAR_T1 Device.coeff_fixture in
  Temperature.partial_data1 7000000 Device.coeff_fixture = d mod 2 ^ 64 /\
  Temperature.partial_data2 7000000 Device.coeff_fixture
  = (PAR_T2 Device.coeff_fixture * d) mod 2 ^ 64 /\
  Temperature.partial_data3 7000000 Device.coeff_fixture = d * d /\
  Temperature.partial_data4 7000000 Device.coeff_fixture
  = d * d * PAR_T3 Device.coeff_fixture /\
  Temperature.partial_data5 7000000 Device.coeff_fixture
  = PAR_T2 Device.coeff_fixture * d * 262144 + d * d * PAR_T3 Device.coeff_fixture /\
  Temperature.partial_data6 7000000 Device.coeff_fixture
  = Z.quot (exact_partial_data5 7000000 Device.coeff_fixture) 4294967269 /\
  Temperature.t 7000000 Device.coeff_fixture
  = Z.quot (Z.quot (exact_partial_data5 7000000 Device.coeff_fixture) 4294967269 * 25)
           16384 /\
  -204801 <= Temperature.t 7000000 Device.coeff_fixture <= 204801.
Proof.
  apply (temperature_formula_on_24_bit_samples 7000000 Device.coeff_fixture).
  vm_compute. split; congruence.
Defined.

Lemma divisors_one_apart (e : Z) :
  - 576460752303423488 < e < 576460752303423488 ->
  Z.abs (Z.quot e 4294967269 - Z.quot e 4294967296) <= 1.
Proof.
  intros He. Z.quot_rem_to_equations. lia.
Qed.

Lemma scaled_one_apart (q1 q2 : Z) :
  Z.abs (q1 - q2) <= 1 ->
  Z.abs (Z.quot (q1 * 25) 16384 - Z.quot (q2 * 25) 16384) <= 1.
Proof.
  intros H. Z.quot_rem_to_equations. lia.
Qed.

(** X9: for a raw sample of 24 bits and any coefficients, dividing by
    4294967269 where the reference formula divides by 2^32 moves the
    linearized intermediate by at most one unit, and the temperature
    returned by at most one hundredth of a degree. *)
Theorem divisor_moves_temperature_by_at_most_one (ut : Z) (c : CoeffBME680) :
  0 <= ut < 2 ^ 24 ->
  Z.abs (Temperature.partial_data6 ut c - Reference.linearized ut c) <= 1 /\
  Z.abs (Temperature.t ut c - Reference.centi_celsius ut c) <= 1.
Proof.
  intros Hut.
  destruct (temperature_exact ut c Hut) as (E5 & E6 & E7 & _).
  destruct (partial_data5_exact ut c Hut) as [_ Hb].
  change (2 ^ 59) with 576460752303423488 in Hb.
  set (e := exact_partial_data5 ut c) in *.
  assert (Hq : -134217728 <= Z.quot e 4294967296 <= 134217728)
    by (apply (quot_bound e 4294967296 134217728); lia).
  assert (R6 : Reference.linearized ut c = Z.quot e 4294967296).
  { unfold Reference.linearized, div64.
    rewrite <- partial_data5_is_reference_combined, E5.
    change (2 ^ 32) with 4294967296. apply int64_small. lia. }
  assert (Ht : -204800 <= Z.quot (Z.quot e 4294967296 * 25) 16384 <= 204800)
    by (apply (quot_bound (Z.quot e 4294967296 * 25) 16384 204800); lia).
  assert (R7 : Reference.centi_celsius ut c
               = Z.quot (Z.quot e 4294967296 * 25) 16384).
  { unfold Reference.centi_celsius, div64, mul64. rewrite R6.
    rewrite (int64_small (_ * 25)) by lia.
    rewrite (int64_small (Z.quot _ 16384)) by lia.
    apply int32_small. lia. }
  rewrite E6, E7, R6, R7.
  pose proof (divisors_one_apart e Hb) as D.
  split; [exact D | now apply scaled_one_apart].
Qed.

Lemma divisor_moves_temperature_by_at_most_one_witness :
  Z.abs (Temperature.partial_data6 8178833 Device.coeff_fixture
         - Reference.linearized 8178833 Device.coeff_fixture) <= 1 /\
  Z.abs (Temperature.t 8178833 Device.coeff_fixture
         - Reference.centi_celsius 8178833 Device.coeff_fixture) <= 1.
Proof.
  apply (divisor_moves_temperature_by_at_most_one 8178833 Device.coeff_fixture).
  vm_compute. split; congruence.
Defined.

(** ** Bus protocol of the accessors *)

Lemma is_prefix_nil {A} (l : list A) : is_prefix [] l.
Proof. exists l. reflexivity. Qed.

Lemma is_prefix_refl {A} (l : list A) : is_prefix l l.
Proof. exists []. apply app_nil_r. Qed.

Lemma is_prefix_app_r {A} (l ops1 ops2 : list A) :
  is_prefix l ops1 -> is_prefix l (ops1 ++ ops2).
Proof.
  intros [rest <-]. exists (rest ++ ops2). apply app_assoc.
Qed.

Lemma is_prefix_app_l {A} (l ops1 ops2 : list A) :
  is_prefix l ops2 -> is_prefix (ops1 ++ l) (ops1 ++ ops2).
Proof.
  intros [rest <-]. exists rest. symmetry. apply app_assoc.
Qed.

Lemma runs_through_Ret {A} (r : outcome A) : runs_through (Ret r) [].
Proof. intros T s. split; [apply is_prefix_nil | reflexivity]. Qed.

Lemma runs_through_Call {A} (op : I2C_op) (k : I2C_resp op -> Prog A)
      (ops : list I2C_op) :
  (forall r, runs_through (k r) ops) -> runs_through (Call op k) (op :: ops).
Proof.
  intros Hk T s. unfold trace_of, outcome_of. simpl.
  destruct (respond T op s) as [resp s1].
  destruct (Hk resp T s1) as [Hp Hd]. unfold trace_of, outcome_of in Hp, Hd.
  destruct (exec T (k resp) s1) as [[r s2] tr]. simpl in *. split.
  - now apply (is_prefix_app_l tr [op] ops).
  - intros a Ha. f_equal. now apply (Hd a).
Qed.

Lemma runs_through_bind {A B} (m : Prog A) (f : A -> Prog B)
      (ops1 ops2 : list I2C_op) :
  runs_through m ops1 -> (forall a, runs_through (f a) ops2) ->
  runs_through (bind m f) (ops1 ++ ops2).
Proof.
  intros Hm Hf T s. unfold trace_of, outcome_of. rewrite exec_bind.
  destruct (Hm T s) as [Hp Hd]. unfold trace_of, outcome_of in Hp, Hd.
  destruct (exec T m s) as [[r s1] tr]. simpl in Hp, Hd.
  destruct r as [a | e |]; simpl.
  - destruct (Hf a T s1) as [Hp2 Hd2]. unfold trace_of, outcome_of in Hp2, Hd2.
    destruct (exec T (f a) s1) as [[r2 s2] tr2]. simpl in *.
    rewrite (Hd a eq_refl). split.
    + now apply is_prefix_app_l.
    + intros b Hb. f_equal. now apply (Hd2 b).
  - split; [now apply is_prefix_app_r | discriminate].
  - split; [now apply is_prefix_app_r | discriminate].
Qed.

Lemma runs_through_of_result {A} (r : result A) : runs_through (of_result r) [].
Proof. destruct r; apply runs_through_Ret. Qed.

Lemma runs_through_index (buf : list byte) (i : nat) :
  runs_through (index buf i) [].
Proof. unfold index. destruct (nth_error buf i); apply runs_through_Ret. Qed.

Lemma binary_Read_CoeffBME680_Ret (buf : list byte) :
  exists r, binary_Read_CoeffBME680 buf = Ret r.
Proof.
  unfold binary_Read_CoeffBME680.
  do 21 (destruct buf as [| ? buf]; [eexists; reflexivity |]).
  eexists; reflexivity.
Qed.

Lemma runs_through_ReadCoefficients (v : SensorBME680) :
  runs_through (ReadCoefficients v)
               [OpWriteBytes [BME680_COEF_START]; OpReadBytes BME680_COEF_BYTES].
Proof.
  unfold ReadCoefficients.
  apply (runs_through_bind _ _ [OpWriteBytes [BME680_COEF_START]]
                           [OpReadBytes BME680_COEF_BYTES]).
  { apply runs_through_Call. intros r. apply runs_through_of_result. }
  intros _.
  apply (runs_through_bind _ _ [OpReadBytes BME680_COEF_BYTES] []).
  { unfold readDataToStruct.
    apply (runs_through_bind _ _ [OpReadBytes BME680_COEF_BYTES] []).
    - apply runs_through_Call. intros r. apply runs_through_of_result.
    - intros buf. destruct (Nat.eqb _ _); apply runs_through_Ret. }
  intros coef1. apply (runs_through_bind _ _ [] []).
  { destruct (binary_Read_CoeffBME680_Ret coef1) as [r ->]. apply runs_through_Ret. }
  intros coeff. apply runs_through_Ret.
Qed.

(** X10: on every transport, the bus operations of
    ReadTemperatureMult100C are an initial segment of the fixed
    sequence: write CONFIG with 0, write the oversampling register,
    read 3 bytes at 0x22, write the calibration start address 0x31,
    read 21 bytes; it stops at the first operation that fails, and a
    call that returns a temperature has performed all five, in that
    order, and nothing else. *)
Theorem ReadTemperatureMult100C_bus_sequence
        (highest : AccuracyMode) (v : SensorBME680) (accuracy : AccuracyMode) :
  runs_through (ReadTemperatureMult100C highest v accuracy)
               (temperature_ops highest accuracy).
Proof.
  unfold ReadTemperatureMult100C, temperature_ops.
  apply (runs_through_bind _ _
           [OpWriteRegU8 BME680_CONFIG x00;
            OpWriteRegU8 BME680_OSR_REG
              (byte_of_Z (shlu8 (getOversamplingRation highest accuracy) 5));
            OpReadRegBytes BME680_TEMP_OUT_MSB_LSB_XLSB 3]
           [OpWriteBytes [BME680_COEF_START]; OpReadBytes BME680_COEF_BYTES]).
  - unfold readUncompTemprature.
    apply (runs_through_bind _ _ [OpWriteRegU8 BME680_CONFIG x00]
             [OpWriteRegU8 BME680_OSR_REG
                (byte_of_Z (shlu8 (getOversamplingRation highest accuracy) 5));
              OpReadRegBytes BME680_TEMP_OUT_MSB_LSB_XLSB 3]).
    { apply (runs_through_Call (OpWriteRegU8 BME680_CONFIG x00)).
      intros r. apply runs_through_of_result. }
    intros _.
    apply (runs_through_bind _ _
             [OpWriteRegU8 BME680_OSR_REG
                (byte_of_Z (shlu8 (getOversamplingRation highest accuracy) 5))]
             [OpReadRegBytes BME680_TEMP_OUT_MSB_LSB_XLSB 3]).
    { apply runs_through_Call. intros r. apply runs_through_of_result. }
    intros _.
    apply (runs_through_bind _ _ [OpReadRegBytes BME680_TEMP_OUT_MSB_LSB_XLSB 3] []).
    { apply runs_through_Call. intros r. apply runs_through_of_result. }
    intros buf.
    do 3 (apply (runs_through_bind _ _ [] []); [apply runs_through_index | intros ?]).
    apply runs_through_Ret.
  - intros ut.
    apply (runs_through_bind _ _
             [OpWriteBytes [BME680_COEF_START]; OpReadBytes BME680_COEF_BYTES] []).
    { apply runs_through_ReadCoefficients. }
    intros v'. apply (runs_through_bind _ _ [] []).
    { unfold deref_Coeff. destruct (Coeff v'); apply runs_through_Ret. }
    intros c. apply runs_through_Ret.
Qed.

Lemma pressure_footprint_wait (max_polls : nat) :
  performs_only pressure_footprint (waitForCompletion IsBusy max_polls).
Proof.
  apply performs_only_waitForCompletion. right. left. reflexivity.
Qed.

(** X11: on every transport, every bus operation of
    ReadPressureMult10Pa is one of: the write of 0x13 to the
    power-control register, a read of the status register, a write to
    the oversampling register, the 3-byte reads at 0x22 and 0x04, the
    write of the calibration start address and the 21-byte read.  It
    writes no other register and no other power mode. *)
Theorem ReadPressureMult10Pa_bus_footprint
        (highest : AccuracyMode) (max_polls : nat) (v : SensorBME680)
        (accuracy : AccuracyMode) :
  performs_only pressure_footprint
                (ReadPressureMult10Pa highest max_polls v accuracy).
Proof.
  unfold ReadPressureMult10Pa. apply performs_only_bind.
  - unfold readUncompTempratureAndPressure.
    apply performs_only_bind.
    { apply performs_only_WriteRegU8. left. reflexivity. }
    intros _. apply performs_only_bind; [apply pressure_footprint_wait |].
    intros _. apply performs_only_bind.
    { apply performs_only_WriteRegU8. right. right. left. eexists. reflexivity. }
    intros _. apply performs_only_bind; [apply pressure_footprint_wait |].
    intros _. apply performs_only_bind.
    { apply performs_only_ReadRegBytes. do 3 right. left. reflexivity. }
    intros buf.
    do 3 (apply performs_only_bind; [apply performs_only_index | intros ?]).
    apply performs_only_bind.
    { apply performs_only_ReadRegBytes. do 4 right. left. reflexivity. }
    intros buf'.
    do 3 (apply performs_only_bind; [apply performs_only_index | intros ?]).
    apply performs_only_Ret.
  - intros [ut up]. apply performs_only_bind.
    { apply performs_only_ReadCoefficients;
        [do 5 right; left; reflexivity | do 6 right; reflexivity]. }
    intros v'. apply performs_only_bind; [apply performs_only_deref_Coeff |].
    intros c. apply performs_only_Ret.
Qed.

(** ** The accessors on a chip with fixed register contents *)

Lemma read_block_temperature (regs : byte -> byte) :
  Device.read_block regs BME680_TEMP_OUT_MSB_LSB_XLSB 3
  = [regs x22; regs x23; regs x24].
Proof. reflexivity. Qed.

Lemma read_block_pressure (regs : byte -> byte) :
  Device.read_block regs BME680_PRES_OUT_MSB_LSB_XLSB 3
  = [regs x04; regs x05; regs x06].
Proof. reflexivity. Qed.

Lemma read_block_calibration (regs : byte -> byte) :
  Device.read_block regs BME680_COEF_START BME680_COEF_BYTES
  = [regs x31; regs x32; regs x33; regs x34; regs x35; regs x36; regs x37;
     regs x38; regs x39; regs x3a; regs x3b; regs x3c; regs x3d; regs x3e;
     regs x3f; regs x40; regs x41; regs x42; regs x43; regs x44; regs x45].
Proof. reflexivity. Qed.

Lemma ReadCoefficients_on_register_file
      (regs : byte -> byte) (v : SensorBME680) (ptr : byte) :
  exec (Device.register_file regs) (ReadCoefficients v) ptr
  = (Done (mkSensorBME680 (Some (coeff_at regs))), BME680_COEF_START,
     [OpWriteBytes [BME680_COEF_START]; OpReadBytes BME680_COEF_BYTES]).
Proof.
  unfold ReadCoefficients, readDataToStruct, WriteBytes, ReadBytes.
  cbn [exec bind Device.register_file respond of_result ret].
  rewrite read_block_calibration. reflexivity.
Qed.

Lemma readUncompTemprature_on_register_file
      (regs : byte -> byte) (highest accuracy : AccuracyMode) (ptr : byte) :
  exec (Device.register_file regs) (readUncompTemprature highest accuracy) ptr
  = (Done (raw_temperature_at regs), ptr,
     [OpWriteRegU8 BME680_CONFIG x00;
      OpWriteRegU8 BME680_OSR_REG
        (byte_of_Z (shlu8 (getOversamplingRation highest accuracy) 5));
      OpReadRegBytes BME680_TEMP_OUT_MSB_LSB_XLSB 3]).
Proof.
  unfold readUncompTemprature, WriteRegU8, ReadRegBytes.
  cbn [exec bind Device.register_file respond of_result ret].
  rewrite read_block_temperature.
  cbn [exec bind index nth_error ret].
  rewrite assemble_u32_value. reflexivity.
Qed.

(** X12: on a chip with fixed register contents, whatever coefficients
    the sensor held before the call and wherever the chip's address
    pointer stood, ReadTemperatureMult100C returns the compensation of
    the raw sample held at 0x22..0x24 (first byte least significant)
    with the calibration block held at 0x31..0x45, stores that block as
    the sensor's coefficients, and performs the five operations of a
    complete read; a second call therefore returns the same value. *)
Theorem ReadTemperatureMult100C_on_register_file
        (regs : byte -> byte) (highest : AccuracyMode) (v : SensorBME680)
        (accuracy : AccuracyMode) (ptr : byte) :
  exec (Device.register_file regs)
       (ReadTemperatureMult100C highest v accuracy) ptr
  = (Done (Temperature.t (raw_temperature_at regs) (coeff_at regs),
           mkSensorBME680 (Some (coeff_at regs))),
     BME680_COEF_START, temperature_ops highest accuracy).
Proof.
  unfold ReadTemperatureMult100C.
  rewrite exec_bind, readUncompTemprature_on_register_file. cbv beta iota zeta.
  rewrite exec_bind, ReadCoefficients_on_register_file. cbv beta iota zeta.
  reflexivity.
Qed.

Lemma waitForCompletion_ready
      (regs : byte -> byte) (polls : nat) (ptr : byte) :
  status_ready regs ->
  exec (Device.register_file regs) (waitForCompletion IsBusy (S polls)) ptr
  = (Done false, ptr, [OpReadRegU8 BME680_STATUS_REG]).
Proof.
  intros Hready. cbn [waitForCompletion].
  rewrite exec_bind.
  rewrite (IsBusy_outcome (Device.register_file regs) ptr ptr
                          (regs BME680_STATUS_REG) eq_refl).
  unfold status_ready in Hready. rewrite Hready. reflexivity.
Qed.

Lemma readUncompTempratureAndPressure_on_register_file
      (regs : byte -> byte) (highest : AccuracyMode) (polls : nat)
      (accuracy : AccuracyMode) (ptr : byte) :
  status_ready regs ->
  exec (Device.register_file regs)
       (readUncompTempratureAndPressure highest (S polls) accuracy) ptr
  = (Done (raw_temperature_at regs, raw_pressure_at regs), ptr,
     [OpWriteRegU8 BME680_PWR_CTRL_REG x13;
      OpReadRegU8 BME680_STATUS_REG;
      OpWriteRegU8 BME680_OSR_REG
        (byte_of_Z (Z.lor (shlu8 (getOversamplingRation highest ACCURACY_STANDARD) 3)
                          (getOversamplingRation highest accuracy)));
      OpReadRegU8 BME680_STATUS_REG;
      OpReadRegBytes BME680_TEMP_OUT_MSB_LSB_XLSB 3;
      OpReadRegBytes BME680_PRES_OUT_MSB_LSB_XLSB 3]).
Proof.
  intros Hready. unfold readUncompTempratureAndPressure.
  rewrite exec_bind. unfold WriteRegU8 at 1.
  cbn [exec Device.register_file respond of_result ret]. cbv beta iota zeta.
  rewrite exec_bind, (waitForCompletion_ready regs polls ptr Hready).
  cbv beta iota zeta.
  rewrite exec_bind. unfold WriteRegU8 at 1.
  cbn [exec Device.register_file respond of_result ret]. cbv beta iota zeta.
  rewrite exec_bind, (waitForCompletion_ready regs polls ptr Hready).
  cbv beta iota zeta.
  unfold ReadRegBytes.
  cbn [exec bind Device.register_file respond of_result ret].
  rewrite read_block_temperature.
  cbn [exec bind index nth_error ret Device.register_file respond of_result].
  rewrite read_block_pressure.
  cbn [exec bind index nth_error ret app].
  rewrite !assemble_s32_value. reflexivity.
Qed.

(** X13: on a chip with fixed register contents whose status byte
    shows a tracked bit, and with a poll budget of at least one,
    ReadPressureMult10Pa returns the compensation of the raw samples
    held at 0x22..0x24 and 0x04..0x06 with the calibration block held at
    0x31..0x45, whatever coefficients the sensor held before; it polls
    the status register once after the power-control write and once
    after the oversampling write, reads temperature before pressure, and
    reloads the calibration block last. *)
Theorem ReadPressureMult10Pa_on_register_file
        (regs : byte -> byte) (highest : AccuracyMode) (polls : nat)
        (v : SensorBME680) (accuracy : AccuracyMode) (ptr : byte) :
  status_ready regs ->
  exec (Device.register_file regs)
       (ReadPressureMult10Pa highest (S polls) v accuracy) ptr
  = (Done (Pressure.comp_press (raw_temperature_at regs) (raw_pressure_at regs)
                               (coeff_at regs),
           mkSensorBME680 (Some (coeff_at regs))),
     BME680_COEF_START,
     [OpWriteRegU8 BME680_PWR_CTRL_REG x13;
      OpReadRegU8 BME680_STATUS_REG;
      OpWriteRegU8 BME680_OSR_REG
        (byte_of_Z (Z.lor (shlu8 (getOversamplingRation highest ACCURACY_STANDARD) 3)
                          (getOversamplingRation highest accuracy)));
      OpReadRegU8 BME680_STATUS_REG;
      OpReadRegBytes BME680_TEMP_OUT_MSB_LSB_XLSB 3;
      OpReadRegBytes BME680_PRES_OUT_MSB_LSB_XLSB 3;
      OpWriteBytes [BME680_COEF_START];
      OpReadBytes BME680_COEF_BYTES]).
Proof.
  intros Hready. unfold ReadPressureMult10Pa.
  rewrite exec_bind,
    (readUncompTempratureAndPressure_on_register_file
       regs highest polls accuracy ptr Hready).
  cbv beta iota zeta.
  rewrite exec_bind, ReadCoefficients_on_register_file. cbv beta iota zeta.
  reflexivity.
Qed.

Lemma ReadPressureMult10Pa_on_register_file_witness :
  outcome_of
    (exec (Device.register_file (Device.regs_sample x10 x20 x30))
          (ReadPressureMult10Pa 5 3 (mkSensorBME680 None) ACCURACY_HIGH) x00)
  = Done (Pressure.comp_press 3153936 3153936
                              (coeff_at (Device.regs_sample x10 x20 x30)),
          mkSensorBME680 (Some (coeff_at (Device.regs_sample x10 x20 x30)))).
Proof.
  unfold outcome_of.
  rewrite (ReadPressureMult10Pa_on_register_file
             (Device.regs_sample x10 x20 x30) 5 2 (mkSensorBME680 None)
             ACCURACY_HIGH x00).
  - reflexivity.
  - vm_compute. reflexivity.
Defined.

(** ** The oversampling byte of the single reads *)

Lemma single_osr_bytes (highest accuracy : AccuracyMode) :
  u8 (byte_of_Z (shlu8 (getOversamplingRation highest accuracy) 5))
  = 32 * getOversamplingRation highest accuracy /\
  u8 (byte_of_Z (getOversamplingRation highest accuracy))
  = getOversamplingRation highest accuracy.
Proof.
  pose proof (getOversamplingRation_values highest accuracy) as Hin.
  simpl in Hin.
  destruct Hin as [E | [E | [E | [E | [E | [E | []]]]]]];
    rewrite <- E; vm_compute; split; reflexivity.
Qed.

(** X14: the temperature-only read writes the oversampling code
    shifted left by five, the byte 32*code, to the oversampling
    register, and the pressure-only read writes the code itself; on any
    transport these are the only values either of them writes there.
    (The combined read places the temperature code at bits 3..5.) *)
Theorem single_reads_oversampling_byte
        (highest : AccuracyMode) (max_polls : nat) (accuracy : AccuracyMode) :
  performs_only
    (osr_value (32 * getOversamplingRation highest accuracy))
    (readUncompTemprature highest accuracy) /\
  performs_only
    (osr_value (getOversamplingRation highest accuracy))
    (readUncompPressure highest max_polls accuracy) /\
  0 <= getOversamplingRation highest accuracy <= 5.
Proof.
  destruct (single_osr_bytes highest accuracy) as [E5 E0].
  assert (Hother : forall z op,
             (forall value, op <> OpWriteRegU8 BME680_OSR_REG value) ->
             osr_value z op).
  { intros z op Hop value E. exfalso. exact (Hop value E). }
  split; [| split].
  - unfold readUncompTemprature.
    apply performs_only_bind.
    { apply performs_only_WriteRegU8. apply Hother. discriminate. }
    intros _. apply performs_only_bind.
    { apply performs_only_WriteRegU8. intros value E. inversion E. exact E5. }
    intros _. apply performs_only_bind.
    { apply performs_only_ReadRegBytes. apply Hother. discriminate. }
    intros buf.
    do 3 (apply performs_only_bind; [apply performs_only_index | intros ?]).
    apply performs_only_Ret.
  - assert (Hwait : performs_only
                      (osr_value (getOversamplingRation highest accuracy))
                      (waitForCompletion IsBusy max_polls)).
    { apply performs_only_waitForCompletion. apply Hother. discriminate. }
    unfold readUncompPressure.
    apply performs_only_bind.
    { apply performs_only_WriteRegU8. apply Hother. discriminate. }
    intros _. apply performs_only_bind; [exact Hwait |].
    intros _. apply performs_only_bind.
    { apply performs_only_WriteRegU8. intros value E. inversion E. exact E0. }
    intros _. apply performs_only_bind; [exact Hwait |].
    intros _. apply performs_only_bind.
    { apply performs_only_ReadRegBytes. apply Hother. discriminate. }
    intros buf.
    do 3 (apply performs_only_bind; [apply performs_only_index | intros ?]).
    apply performs_only_Ret.
  - pose proof (getOversamplingRation_values highest accuracy) as Hin.
    simpl in Hin. lia.
Qed.

(** ** Loading the calibration block *)

(** X15: on every transport, when the write of the calibration start
    address fails, ReadCoefficients returns that error without reading
    the block; and whenever it returns a sensor, that sensor's
    coefficient set is present (non-nil), whatever the sensor held
    before. *)
Theorem ReadCoefficients_load
        (T : Transport) (s : bus T) (v : SensorBME680) :
  (forall e s1,
      respond T (OpWriteBytes [BME680_COEF_START]) s = (Error e, s1) ->
      exec T (ReadCoefficients v) s
      = (Fail e, s1, [OpWriteBytes [BME680_COEF_START]])) /\
  (forall v',
      outcome_of (exec T (ReadCoefficients v) s) = Done v' ->
      Coeff v' <> None).
Proof.
  unfold ReadCoefficients, readDataToStruct, WriteBytes, ReadBytes, outcome_of.
  split.
  - intros e s1 H. cbn [exec bind]. rewrite H. reflexivity.
  - intros v'. cbn [exec bind].
    destruct (respond T (OpWriteBytes [BME680_COEF_START]) s) as [[[] | e] s1];
      cbn [exec bind of_result ret fail fst]; [| discriminate].
    destruct (respond T (OpReadBytes BME680_COEF_BYTES) s1) as [[buf | e] s2];
      cbn [exec bind of_result ret fail fst]; [| discriminate].
    destruct (Nat.eqb (List.length buf) BME680_COEF_BYTES);
      cbn [exec bind of_result ret fail fst]; [| discriminate].
    destruct (binary_Read_CoeffBME680_Ret buf) as [r ->].
    destruct r as [c | e |]; cbn [exec bind ret fst]; try discriminate.
    intros H. inversion H. discriminate.
Qed.

Lemma ReadCoefficients_load_witness :
  exec (dead_bus (ErrTransport 5)) (ReadCoefficients (mkSensorBME680 None)) tt
  = (Fail (ErrTransport 5), tt, [OpWriteBytes [BME680_COEF_START]]) /\
  Coeff (mkSensorBME680 (Some (coeff_at Device.regs_fixture))) <> None.
Proof.
  split.
  - apply (proj1 (ReadCoefficients_load (dead_bus (ErrTransport 5)) tt
                                         (mkSensorBME680 None))).
    reflexivity.
  - apply (proj2 (ReadCoefficients_load
                    (Device.register_file Device.regs_fixture) x00
                    (mkSensorBME680 None))).
    unfold outcome_of. rewrite ReadCoefficients_on_register_file. reflexivity.
Defined.

(** ** Driver construction, continued *)

(** X16: for any sensor type, supported or not, when the read of the
    identity register fails NewBMP returns that error and no driver,
    and the failed read is its only bus operation. *)
Theorem NewBMP_identity_read_failure
        (BMP180 BMP280 : Bmp.Sensor) (sensorType : Bmp.SensorType)
        (T : Transport) (s s1 : bus T) (e : error) :
  respond T (OpReadRegU8 Bmp.ID_REG) s = (Error e, s1) ->
  exec T (Bmp.NewBMP BMP180 BMP280 sensorType) s
  = (Fail e, s1, [OpReadRegU8 Bmp.ID_REG]).
Proof.
  intros H. unfold Bmp.NewBMP, Bmp.readSensorID, ReadRegU8.
  cbn [exec bind]. rewrite H. reflexivity.
Qed.

Lemma NewBMP_identity_read_failure_witness :
  exec (dead_bus (ErrTransport 3))
       (Bmp.NewBMP (Device.bme680_sensor 5 10) (Device.bme680_sensor 5 10)
                   Bmp.BMP180_TYPE) tt
  = (Fail (ErrTransport 3), tt, [OpReadRegU8 Bmp.ID_REG]).
Proof.
  apply (NewBMP_identity_read_failure
           (Device.bme680_sensor 5 10) (Device.bme680_sensor 5 10)
           Bmp.BMP180_TYPE (dead_bus (ErrTransport 3)) tt tt (ErrTransport 3)).
  reflexivity.
Defined.

(** X17: for a sensor type other than BMP180_TYPE and BMP280_TYPE,
    NewBMP never returns a driver: it reads the identity register and
    then either returns the read error or, the read having succeeded,
    panics on the nil sensor; no calibration read is performed. *)
Theorem NewBMP_unsupported_type
        (BMP180 BMP280 : Bmp.Sensor) (sensorType : Bmp.SensorType)
        (T : Transport) (s : bus T) :
  sensorType <> Bmp.BMP180_TYPE -> sensorType <> Bmp.BMP280_TYPE ->
  exec T (Bmp.NewBMP BMP180 BMP280 sensorType) s
  = (match fst (respond T (OpReadRegU8 Bmp.ID_REG) s) with
     | Ok _ => Panic
     | Error e => Fail e
     end,
     snd (respond T (OpReadRegU8 Bmp.ID_REG) s),
     [OpReadRegU8 Bmp.ID_REG]).
Proof.
  intros N1 N2. unfold Bmp.NewBMP, Bmp.readSensorID, ReadRegU8.
  destruct (Z.eqb_spec sensorType Bmp.BMP180_TYPE) as [E | _]; [contradiction |].
  destruct (Z.eqb_spec sensorType Bmp.BMP280_TYPE) as [E | _]; [contradiction |].
  cbn [exec bind].
  destruct (respond T (OpReadRegU8 Bmp.ID_REG) s) as [[i | e] s1]; reflexivity.
Qed.

Lemma NewBMP_unsupported_type_witness :
  exec (Device.register_file (Device.regs_erased x25))
       (Bmp.NewBMP (Device.bme680_sensor 5 10) (Device.bme680_sensor 5 10) 2) x00
  = (Panic, x00, [OpReadRegU8 Bmp.ID_REG]).
Proof.
  apply (NewBMP_unsupported_type
           (Device.bme680_sensor 5 10) (Device.bme680_sensor 5 10) 2
           (Device.register_file (Device.regs_erased x25)) x00);
    discriminate.
Defined.

(** X18: for a supported sensor type, when the identity byte matches
    the sensor's signature and the calibration load fails, NewBMP
    returns the load's error and no driver; its bus operations are the
    identity read followed by those of the failed load. *)
Theorem NewBMP_load_failure
        (BMP180 BMP280 sns : Bmp.Sensor) (sensorType : Bmp.SensorType)
        (T : Transport) (s s1 s2 : bus T) (e : error) (tr : list I2C_op) :
  constructed BMP180 BMP280 sensorType sns ->
  respond T (OpReadRegU8 Bmp.ID_REG) s
  = (Ok (Bmp.GetSensorSignature (Bmp.impl sns) (Bmp.receiver sns)), s1) ->
  exec T (Bmp.ReadCoefficients (Bmp.impl sns) (Bmp.receiver sns)) s1
  = (Fail e, s2, tr) ->
  exec T (Bmp.NewBMP BMP180 BMP280 sensorType) s
  = (Fail e, s2, OpReadRegU8 Bmp.ID_REG :: tr).
Proof.
  intros Hsel Hid Hload.
  unfold Bmp.NewBMP, Bmp.readSensorID, ReadRegU8.
  destruct Hsel as [[-> ->] | [-> ->]]; simpl; rewrite Hid; simpl;
    rewrite Byte_eqb_refl; simpl; rewrite exec_bind, Hload; reflexivity.
Qed.

Lemma NewBMP_load_failure_witness :
  exec (id_only_bus x25 (ErrTransport 9))
       (Bmp.NewBMP (Device.bme680_sensor 5 10) (Device.bme680_sensor 5 10)
                   Bmp.BMP180_TYPE) tt
  = (Fail (ErrTransport 9), tt,
     [OpReadRegU8 Bmp.ID_REG; OpWriteBytes [BME680_COEF_START]]).
Proof.
  apply (NewBMP_load_failure
           (Device.bme680_sensor 5 10) (Device.bme680_sensor 5 10)
           (Device.bme680_sensor 5 10) Bmp.BMP180_TYPE
           (id_only_bus x25 (ErrTransport 9)) tt tt tt (ErrTransport 9)
           [OpWriteBytes [BME680_COEF_START]]).
  - left. split; reflexivity.
  - reflexivity.
  - reflexivity.
Defined.

(** X19: whenever NewBMP returns a driver, the sensor type was a
    supported one, the driver records that type and the identity byte
    read, that byte equals the signature of the constructed sensor, the
    driver holds a sensor (so BMP.IsValidCoefficients on it does not
    panic), and the first bus operation was the identity read. *)
Theorem NewBMP_returned_driver
        (BMP180 BMP280 : Bmp.Sensor) (sensorType : Bmp.SensorType)
        (T : Transport) (s s2 : bus T) (drv : Bmp.BMP) (tr : list I2C_op) :
  exec T (Bmp.NewBMP BMP180 BMP280 sensorType) s = (Done drv, s2, tr) ->
  exists sns r tr',
    constructed BMP180 BMP280 sensorType sns /\
    Bmp.sensorType drv = sensorType /\
    Bmp.id drv = Bmp.GetSensorSignature (Bmp.impl sns) (Bmp.receiver sns) /\
    fst (respond T (OpReadRegU8 Bmp.ID_REG) s) = Ok (Bmp.id drv) /\
    Bmp.bmp drv = Some (Bmp.mkSensor (Bmp.impl sns) r) /\
    Bmp.BMP_IsValidCoefficients drv <> Panic /\
    tr = OpReadRegU8 Bmp.ID_REG :: tr'.
Proof.
  unfold Bmp.NewBMP, Bmp.readSensorID, ReadRegU8.
  destruct (Z.eqb_spec sensorType Bmp.BMP180_TYPE) as [E1 | N1];
    [| destruct (Z.eqb_spec sensorType Bmp.BMP280_TYPE) as [E2 | N2]].
  3: { cbn [exec bind].
       destruct (respond T (OpReadRegU8 Bmp.ID_REG) s) as [[i | e] s1];
         cbn [exec bind of_result ret fail Bmp.deref_bmp Bmp.bmp panic];
         discriminate. }
  all: cbn [exec bind];
    destruct (respond T (OpReadRegU8 Bmp.ID_REG) s) as [[i | e] s1];
    cbn [exec bind of_result ret fail Bmp.deref_bmp Bmp.bmp Bmp.id
              Bmp.sensorType fst];
    [| discriminate];
    match goal with
    | |- context [Byte.eqb i (Bmp.GetSensorSignature (Bmp.impl ?sns) _)] =>
        destruct (Byte.eqb i (Bmp.GetSensorSignature (Bmp.impl sns) (Bmp.receiver sns)))
          eqn:Eb; cbn [negb exec fail]; [| discriminate];
        apply Byte.byte_dec_bl in Eb;
        rewrite exec_bind;
        destruct (exec T (Bmp.ReadCoefficients (Bmp.impl sns) (Bmp.receiver sns)) s1)
          as [[r s3] tr1];
        destruct r as [r | e |]; try discriminate;
        cbn [exec ret]; intros H; inversion H; subst;
        exists sns, r, (tr1 ++ [])
    end.
  - repeat split; try reflexivity.
    + left. split; reflexivity.
    + unfold Bmp.BMP_IsValidCoefficients. cbn [Bmp.bmp Bmp.impl Bmp.receiver].
      destruct (Bmp.IsValidCoefficients (Bmp.impl BMP180) r); discriminate.
  - repeat split; try reflexivity.
    + right. split; reflexivity.
    + unfold Bmp.BMP_IsValidCoefficients. cbn [Bmp.bmp Bmp.impl Bmp.receiver].
      destruct (Bmp.IsValidCoefficients (Bmp.impl BMP280) r); discriminate.
Qed.

Lemma NewBMP_returned_driver_witness :
  exists sns r tr',
    constructed (Device.bme680_sensor 5 10) (Device.bme680_sensor 5 10)
                Bmp.BMP280_TYPE sns /\
    Bmp.BMP280_TYPE = Bmp.BMP280_TYPE /\
    x25 = Bmp.GetSensorSignature (Bmp.impl sns) (Bmp.receiver sns) /\
    fst (respond (Device.register_file (Device.regs_erased x25))
                 (OpReadRegU8 Bmp.ID_REG) x00) = Ok x25 /\
    Some (Bmp.mkSensor (Device.bme680_interface 5 10)
                       (mkSensorBME680 (Some coeff_erased)))
    = Some (Bmp.mkSensor (Bmp.impl sns) r) /\
    Bmp.BMP_IsValidCoefficients
      (Bmp.mkBMP Bmp.BMP280_TYPE
         (Some (Bmp.mkSensor (Device.bme680_interface 5 10)
                             (mkSensorBME680 (Some coeff_erased)))) x25)
    <> Panic /\
    [OpReadRegU8 Bmp.ID_REG; OpWriteBytes [BME680_COEF_START];
     OpReadBytes BME680_COEF_BYTES]
    = OpReadRegU8 Bmp.ID_REG :: tr'.
Proof.
  apply (NewBMP_returned_driver
           (Device.bme680_sensor 5 10) (Device.bme680_sensor 5 10)
           Bmp.BMP280_TYPE
           (Device.register_file (Device.regs_erased x25)) x00 x31
           (Bmp.mkBMP Bmp.BMP280_TYPE
              (Some (Bmp.mkSensor (Device.bme680_interface 5 10)
                                  (mkSensorBME680 (Some coeff_erased)))) x25)
           [OpReadRegU8 Bmp.ID_REG; OpWriteBytes [BME680_COEF_START];
            OpReadBytes BME680_COEF_BYTES]).
  apply (NewBMP_run_on_matching_signature
           (Device.bme680_sensor 5 10) (Device.bme680_sensor 5 10)
           (Device.bme680_sensor 5 10) Bmp.BMP280_TYPE
           (Device.register_file (Device.regs_erased x25)) x00 x00 x31
           (mkSensorBME680 (Some coeff_erased))
           [OpWriteBytes [BME680_COEF_START]; OpReadBytes BME680_COEF_BYTES]).
  - right. split; reflexivity.
  - reflexivity.
  - apply erased_device_loads.
Defined.

(** ** The temperature accessor on any transport *)

(** X20: on every transport, whenever ReadTemperatureMult100C returns
    a temperature t, the 3-byte read at 0x22 (issued after the two
    register writes) was answered with bytes b0, b1, b2, and the 21-byte
    read (issued after the start-address write) with a calibration
    block; t is the temperature formula applied to the sample
    b0 + b1*256 + b2*65536 and to the coefficients decoded from that
    block, which are the coefficients left stored in the sensor; t
    equals partial_data5 computed in unbounded integers, divided by
    4294967269, times 25, divided by 16384 (both divisions truncating
    toward zero), and lies within -204801..204801. *)
Theorem ReadTemperatureMult100C_result_from_bus
        (T : Transport) (s sf : bus T) (highest : AccuracyMode)
        (v v' : SensorBME680) (accuracy : AccuracyMode)
        (t : Z) (tr : list I2C_op) :
  exec T (ReadTemperatureMult100C highest v accuracy) s = (Done (t, v'), sf, tr) ->
  exists b0 b1 b2 rest block c,
    fst (respond T (OpReadRegBytes BME680_TEMP_OUT_MSB_LSB_XLSB 3)
                 (state_after T s (firstn 2 (temperature_ops highest accuracy))))
    = Ok (b0 :: b1 :: b2 :: rest) /\
    fst (respond T (OpReadBytes BME680_COEF_BYTES)
                 (state_after T s (firstn 4 (temperature_ops highest accuracy))))
    = Ok block /\
    binary_Read_CoeffBME680 block = ret c /\
    v' = mkSensorBME680 (Some c) /\
    t = Temperature.t (u8 b0 + u8 b1 * 256 + u8 b2 * 65536) c /\
    t = Z.quot (Z.quot (exact_partial_data5 (u8 b0 + u8 b1 * 256 + u8 b2 * 65536) c)
                       4294967269 * 25) 16384 /\
    -204801 <= t <= 204801.
Proof.
  unfold ReadTemperatureMult100C, readUncompTemprature, ReadCoefficients,
    readDataToStruct, WriteRegU8, ReadRegBytes, WriteBytes, ReadBytes,
    temperature_ops.
  change (byte_of_Z (Z.shiftl BME680_coef_0 1)) with x00.
  cbn [exec bind firstn state_after].
  destruct (respond T (OpWriteRegU8 BME680_CONFIG x00) s) as [[[] | e] s1];
    cbn [exec bind of_result ret fail snd]; [| discriminate].
  destruct (respond T (OpWriteRegU8 BME680_OSR_REG _) s1) as [[[] | e] s2];
    cbn [exec bind of_result ret fail snd]; [| discriminate].
  destruct (respond T (OpReadRegBytes BME680_TEMP_OUT_MSB_LSB_XLSB 3) s2)
    as [[buf | e] s3];
    cbn [exec bind of_result ret fail snd fst]; [| discriminate].
  destruct buf as [| b0 [| b1 [| b2 rest]]];
    cbn [exec bind index nth_error ret panic]; try discriminate.
  destruct (respond T (OpWriteBytes [BME680_COEF_START]) s3) as [[[] | e] s4];
    cbn [exec bind of_result ret fail snd]; [| discriminate].
  destruct (respond T (OpReadBytes BME680_COEF_BYTES) s4) as [[block | e] s5];
    cbn [exec bind of_result ret fail snd fst]; [| discriminate].
  destruct (Nat.eqb (List.length block) BME680_COEF_BYTES);
    cbn [exec bind ret fail]; [| discriminate].
  destruct (binary_Read_CoeffBME680_Ret block) as [r Hr]. rewrite Hr.
  destruct r as [c | e |]; cbn [exec bind ret deref_Coeff Coeff]; try discriminate.
  intros H. inversion H; subst. clear H.
  rewrite assemble_u32_value.
  pose proof (u8_range b0). pose proof (u8_range b1). pose proof (u8_range b2).
  assert (Hut : 0 <= u8 b0 + u8 b1 * 256 + u8 b2 * 65536 < 2 ^ 24)
    by (change (2 ^ 24) with 16777216; lia).
  destruct (temperature_exact _ c Hut) as (_ & _ & E7 & Hb).
  exists b0, b1, b2, rest, block, c.
  repeat split; try reflexivity; try assumption; lia.
Qed.

Lemma ReadTemperatureMult100C_result_from_bus_witness :
  exists b0 b1 b2 rest block c,
    fst (respond (Device.register_file Device.regs_fixture)
                 (OpReadRegBytes BME680_TEMP_OUT_MSB_LSB_XLSB 3)
                 (state_after (Device.register_file Device.regs_fixture) x00
                              (firstn 2 (temperature_ops 5 ACCURACY_STANDARD))))
    = Ok (b0 :: b1 :: b2 :: rest) /\
    fst (respond (Device.register_file Device.regs_fixture)
                 (OpReadBytes BME680_COEF_BYTES)
                 (state_after (Device.register_file Device.regs_fixture) x00
                              (firstn 4 (temperature_ops 5 ACCURACY_STANDARD))))
    = Ok block /\
    binary_Read_CoeffBME680 block = ret c /\
    mkSensorBME680 (Some Device.coeff_fixture) = mkSensorBME680 (Some c) /\
    1972 = Temperature.t (u8 b0 + u8 b1 * 256 + u8 b2 * 65536) c /\
    1972 = Z.quot (Z.quot (exact_partial_data5 (u8 b0 + u8 b1 * 256 + u8 b2 * 65536) c)
                          4294967269 * 25) 16384 /\
    -204801 <= 1972 <= 204801.
Proof.
  apply (ReadTemperatureMult100C_result_from_bus
           (Device.register_file Device.regs_fixture) x00 x31 5
           (mkSensorBME680 None) (mkSensorBME680 (Some Device.coeff_fixture))
           ACCURACY_STANDARD 1972
           [OpWriteRegU8 BME680_CONFIG x00; OpWriteRegU8 BME680_OSR_REG x40;
            OpReadRegBytes BME680_TEMP_OUT_MSB_LSB_XLSB 3;
            OpWriteBytes [BME680_COEF_START]; OpReadBytes BME680_COEF_BYTES]).
  vm_compute. reflexivity.
Defined.
